(** * Puzzle benchmark of chess move-selection strategies (main.py)

    A shallow embedding of [main.py]: the two material evaluators, the
    fixed-depth [MinMaxStrategy] search, [RandomStrategy], the puzzle record
    decoder and the [StrategyEvaluator] harness with its running statistics.

    The chess rules (board representation, legal moves, checkmate detection,
    FEN parsing, UCI move text) come from the python-chess library, which the
    program only calls.  They enter the development as the interface
    [RulesEngine]; every theorem about the program holds for any
    implementation of it.  Concrete runs use [Table.engine], an engine whose
    positions are given by their FEN text and a finite table of their legal
    moves. *)

From stdpp Require Import base numbers list strings gmap pretty.
From Stdlib Require Import ZArith Ascii.

Set Default Proof Using "Type".

(** ** Python exceptions and fallible results *)

Inductive exception : Type :=
  | IndexError       (* sequence index out of range, choice from an empty sequence *)
  | ValueError       (* chess.Board(fen) on a malformed FEN *)
  | KeyError         (* dict lookup of a missing key *)
  | StopIteration.   (* next(f) on an exhausted file *)

Definition Exc (A : Type) : Type := (exception + A)%type.

#[global] Instance Exc_ret : MRet Exc := fun A a => inr a.

#[global] Instance Exc_bind : MBind Exc := fun A B k r =>
  match r with
  | inr a => k a
  | inl e => inl e
  end.

(** ** The rules engine: python-chess seen through the calls main.py makes *)

(** [chess.WHITE = True], [chess.BLACK = False]. *)
Definition Color : Type := bool.
Definition WHITE : Color := true.
Definition BLACK : Color := false.

Inductive PieceType : Type := PAWN | KNIGHT | BISHOP | ROOK | QUEEN | KING.

(** A square is its index, [a1 = 0] up to [h8 = 63]; a [SquareSet] is modelled
    by the list of its squares, so [len(board.pieces(pt, color))] is a
    [length]. *)
Definition Square : Type := nat.

Class RulesEngine : Type := {
  Board : Type;
  Move : Type;
  turn : Board -> Color;                              (* board.turn *)
  pieces : Board -> PieceType -> Color -> list Square; (* board.pieces(pt, color) *)
  is_checkmate : Board -> bool;                       (* board.is_checkmate() *)
  legal_moves : Board -> list Move;                   (* list(board.legal_moves) *)
  push : Board -> Move -> Board;                      (* copy of board with move pushed *)
  Move_bool : Move -> bool;                           (* truth value of a move *)
  uci : Move -> string;                               (* move.uci() *)
  Board_of_fen : string -> option Board               (* chess.Board(fen); None: ValueError *)
}.

(** ** Sorting as [list.sort(key=...)] does: stable, ascending *)

Section Sort.
Context {A : Type} (key : A -> Z).

Fixpoint insert_by_key (x : A) (l : list A) : list A :=
  match l with
  | [] => [x]
  | y :: l' => if (key x <=? key y)%Z then x :: y :: l' else y :: insert_by_key x l'
  end.

(** Each element is inserted in front of the already sorted elements that
    followed it in the input, and goes before those of equal key: elements of
    equal key keep their input order. *)
Fixpoint sort_by_key (l : list A) : list A :=
  match l with
  | [] => []
  | x :: l' => insert_by_key x (sort_by_key l')
  end.

(** [x], at index [i] of [l], is the first element of least key. *)
Definition first_min (l : list A) (i : nat) (x : A) : Prop :=
  l !! i = Some x /\
  (forall j y, l !! j = Some y -> (key x <= key y)%Z) /\
  (forall j y, j < i -> l !! j = Some y -> (key x < key y)%Z).
End Sort.

(** ** Text: [str.split], [str.strip], [str.join] *)

(** [s.split(sep)] for a one-character separator: never empty, one more
    field than there are separators. *)
Fixpoint split (sep : ascii) (s : string) : list string :=
  match s with
  | EmptyString => [EmptyString]
  | String c s' =>
      if decide (c = sep) then EmptyString :: split sep s'
      else match split sep s' with
           | field :: fields => String c field :: fields
           | [] => [String c EmptyString]
           end
  end.

(** The ASCII characters [str.isspace] accepts: tab to carriage return, the
    four separators 28..31, and the space. *)
Definition isspace (c : ascii) : bool :=
  let n := nat_of_ascii c in
  ((9 <=? n) && (n <=? 13)) || ((28 <=? n) && (n <=? 32)).

Fixpoint lstrip (s : string) : string :=
  match s with
  | EmptyString => EmptyString
  | String c s' => if isspace c then lstrip s' else s
  end.

Fixpoint rstrip (s : string) : string :=
  match s with
  | EmptyString => EmptyString
  | String c s' =>
      match rstrip s' with
      | EmptyString => if isspace c then EmptyString else String c EmptyString
      | rest => String c rest
      end
  end.

(** [s.strip()]. *)
Definition strip (s : string) : string := rstrip (lstrip s).

(** [sep.join(parts)]. *)
Fixpoint join (sep : string) (parts : list string) : string :=
  match parts with
  | [] => EmptyString
  | [part] => part
  | part :: parts' => part +:+ sep +:+ join sep parts'
  end.

(** ** The win rate and its [:.1f] rendering

    [(wins / total) * 100] is computed on binary64 floats.  A finite
    non-negative float is kept as the pair of its integer significand and
    its binary exponent, and each operation rounds the exact rational result
    to the nearest float, ties to the even significand. *)

Module Float.
Local Open Scope Z_scope.

Record float : Type := { mant : Z; expo : Z }.   (* mant * 2^expo *)

(** [2^x] for [0 <= x], and 1 below: the two factors [pow2 x] and
    [pow2 (- x)] put a binary exponent on the numerator or on the
    denominator of a fraction. *)
Definition pow2 (x : Z) : Z := 2 ^ Z.max x 0.

(** Nearest integer to [n / d], ties to even ([0 <= n], [0 < d]). *)
Definition nearest_even (n d : Z) : Z :=
  let q := n / d in
  let r := n mod d in
  if 2 * r <? d then q
  else if d <? 2 * r then q + 1
  else if Z.even q then q else q + 1.

(** The binary64 float nearest to [n / d] ([0 <= n], [0 < d], below the
    overflow threshold): 53 significant bits, exponent not under -1074. *)
Definition round (n d : Z) : float :=
  if n =? 0 then {| mant := 0; expo := 0 |}
  else
    let k := Z.log2 n - Z.log2 d in
    let floor_log2 :=
      if d * pow2 k <=? n * pow2 (- k) then k else k - 1 in
    let e := Z.max (floor_log2 - 52) (-1074) in
    {| mant := nearest_even (n * pow2 (- e)) (d * pow2 e); expo := e |}.

(** [a / b] on Python integers: the correctly rounded quotient. *)
Definition truediv (a b : Z) : float := round a b.

(** [x * k] for an integer [k] that is exactly a float (here 100). *)
Definition mul_int (x : float) (k : Z) : float :=
  round (mant x * k * pow2 (expo x)) (pow2 (- expo x)).

(** [f"{x:.1f}"]: the exact value rounded to one decimal, ties to even. *)
Definition format_1f (x : float) : string :=
  let tenths :=
    nearest_even (mant x * 10 * pow2 (expo x)) (pow2 (- expo x)) in
  pretty (tenths / 10) +:+ "." +:+ pretty (tenths mod 10).
End Float.

(** ** Evaluators *)

Section Program.
Context `{E : RulesEngine}.

Local Open Scope Z_scope.

(** [BaseBoardEvaluator.PIECE_VALUES]; a dict, kept as its items in
    insertion order. *)
Definition PIECE_VALUES : list (PieceType * Z) :=
  [(PAWN, 1); (KNIGHT, 3); (BISHOP, 3); (ROOK, 5); (QUEEN, 9)].

(** [BaseBoardEvaluator.opponent]. *)
Definition opponent (color : Color) : Color :=
  if bool_decide (color = WHITE) then BLACK else WHITE.

(** [BaseBoardEvaluator.sum_pieces].  [piece_weights or self.PIECE_VALUES]
    takes the class table when the argument is [None] or an empty dict. *)
Definition sum_pieces (board : Board) (color : Color)
    (piece_weights : option (list (PieceType * Z))) : Z :=
  let weights :=
    match piece_weights with
    | Some (item :: items) => item :: items
    | _ => PIECE_VALUES
    end in
  fold_left Z.add
    (map (fun '(piece_type, weight) =>
            weight * Z.of_nat (length (pieces board piece_type color)))
         weights)
    0.

(** The two concrete subclasses of [BaseBoardEvaluator], each with its
    [name]. *)
Inductive BoardEvaluator : Type :=
  | MaterialBalanceEvaluator (name : string)
  | MaterialDiffEvaluator (name : string).

Definition MaterialBalanceEvaluator_evaluate
    (board init_board : Board) (player : Z) : Z :=
  if is_checkmate board then - player
  else
    let color := turn board in
    player * (sum_pieces board color None
              - sum_pieces board (opponent color) None).

Definition MaterialDiffEvaluator_evaluate
    (board init_board : Board) (player : Z) : Z :=
  if is_checkmate board then - player
  else
    let color := turn board in
    player * ((sum_pieces board color None - sum_pieces init_board color None)
              - (sum_pieces board (opponent color) None
                 - sum_pieces init_board (opponent color) None)).

(** [self.evaluator.evaluate(board, init_board, player)]. *)
Definition evaluate (evaluator : BoardEvaluator)
    (board init_board : Board) (player : Z) : Z :=
  match evaluator with
  | MaterialBalanceEvaluator _ => MaterialBalanceEvaluator_evaluate board init_board player
  | MaterialDiffEvaluator _ => MaterialDiffEvaluator_evaluate board init_board player
  end.

(** ** MinMaxStrategy *)

(** The fields a [MinMaxStrategy] adds to its name and statistics. *)
Record MinMaxStrategy : Type := {
  depth : Z;
  evaluator : BoardEvaluator
}.

(** [MinMaxStrategy.apply_move]. *)
Definition apply_move (board : Board) (move : Move) : Board := push board move.

(** The recursion of [minmax] and [evaluate_move], on the number of plies
    left before [self.depth <= depth] holds.  [init_board] is already
    resolved here: below the root it is never [None]. *)
Fixpoint minmax_plies (self : MinMaxStrategy) (plies : nat)
    (board : Board) (player : Z) (init_board : Board) : Z * option Move :=
  match plies with
  | O => (evaluate (evaluator self) board init_board player, None)
  | S plies' =>
      match legal_moves board with
      | [] => (evaluate (evaluator self) board init_board player, None)
      | moves =>
          let evaluations :=
            map (fun move =>
                   let new_board := apply_move board move in
                   let '(score, _) :=
                     minmax_plies self plies' new_board player init_board in
                   (score, Some move))
                moves in
          hd (0, None) (sort_by_key fst evaluations)
      end
  end.

(** [init_board or board]: a [Board] object is always true. *)
Definition or_board (init_board : option Board) (board : Board) : Board :=
  match init_board with
  | Some b => b
  | None => board
  end.

(** [MinMaxStrategy.minmax(board, player, init_board, depth)]. *)
Definition minmax (self : MinMaxStrategy) (board : Board) (player : Z)
    (init_board : option Board) (depth_now : Z) : Z * option Move :=
  minmax_plies self (Z.to_nat (depth self - depth_now))
    board player (or_board init_board board).

(** [MinMaxStrategy.evaluate_move]. *)
Definition evaluate_move (self : MinMaxStrategy) (move : Move) (player : Z)
    (board init_board : Board) (depth_now : Z) : Z * option Move :=
  let new_board := apply_move board move in
  let '(score, _) := minmax self new_board player (Some init_board) depth_now in
  (score, Some move).

(** [MinMaxStrategy.get_move]: [minmax(board)] runs with the defaults
    [player = 1], [init_board = None], [depth = 0]. *)
Definition MinMaxStrategy_get_move (self : MinMaxStrategy) (board : Board)
    : option string :=
  let '(_, move) := minmax self board 1 None 0 in
  match move with
  | Some m => if Move_bool m then Some (uci m) else None
  | None => None
  end.

Local Close Scope Z_scope.

(** ** Puzzle records *)

(** [PuzzleExtractor.HEADERS]. *)
Definition HEADERS : list string :=
  ["PuzzleId"; "FEN"; "Moves"; "Rating"; "RatingDeviation"; "Popularity";
   "NbPlays"; "Themes"; "GameUrl"; "OpeningTags"].

Record PuzzleExtractor : Type := { header_idx : gmap string nat }.

(** [dict(pairs)]: a later pair replaces an earlier one with the same key. *)
Definition dict {V : Type} (items : list (string * V)) : gmap string V :=
  fold_left (fun d '(k, v) => <[k := v]> d) items ∅.

(** [PuzzleExtractor.__init__]: the index of every name of [HEADERS]; the
    puzzle file plays no part in it. *)
Definition PuzzleExtractor_init : PuzzleExtractor :=
  {| header_idx := dict (imap (fun i header => (header, i)) HEADERS) |}.

(** [d[k]] on a dict and [xs[i]] on a list, for [0 <= i]. *)
Definition dict_getitem {V : Type} (d : gmap string V) (k : string) : Exc V :=
  match d !! k with
  | Some v => inr v
  | None => inl KeyError
  end.

Definition getitem {A : Type} (xs : list A) (i : nat) : Exc A :=
  match xs !! i with
  | Some x => inr x
  | None => inl IndexError
  end.

(** [chess.Board(fen)]. *)
Definition Board_init (fen : string) : Exc Board :=
  match Board_of_fen fen with
  | Some board => inr board
  | None => inl ValueError
  end.

(** [PuzzleExtractor.extract_puzzle]. *)
Definition extract_puzzle (self : PuzzleExtractor) (line : string)
    : Exc (Board * list string) :=
  let xs := split "," line in
  i_fen ← dict_getitem (header_idx self) "FEN";
  fen ← getitem xs i_fen;
  board ← Board_init fen;
  i_moves ← dict_getitem (header_idx self) "Moves";
  moves ← getitem xs i_moves;
  let solution_moves := split " " moves in
  mret (board, solution_moves).

(** ** Strategies and their statistics *)

(** [strategy.stats], the dict [{'wins': _, 'total': _}]. *)
Record Stats : Type := { wins : nat; total : nat }.

Inductive StrategyKind : Type :=
  | MinMax (search : MinMaxStrategy)
  | Random.

(** A [ChessStrategy] object: [MinMaxStrategy] or [RandomStrategy]. *)
Record ChessStrategy : Type := {
  name : string;
  stats : Stats;
  kind : StrategyKind
}.

(** [MinMaxStrategy(name, depth, evaluator)], an omitted argument being
    [None] here. *)
Definition MinMaxStrategy_init (name : option string) (depth : option Z)
    (evaluator : option BoardEvaluator) : ChessStrategy :=
  {| name := default "minmax" name;
     stats := {| wins := 0; total := 0 |};
     kind := MinMax {| depth := default 3%Z depth;
                       evaluator := default (MaterialBalanceEvaluator "default")
                                            evaluator |} |}.

(** [RandomStrategy()]. *)
Definition RandomStrategy_init : ChessStrategy :=
  {| name := "random"; stats := {| wins := 0; total := 0 |}; kind := Random |}.

(** The strategies [main] registers, in its order. *)
Definition main_strategies : list ChessStrategy :=
  [ RandomStrategy_init;
    MinMaxStrategy_init (Some "minmax_balance") None
      (Some (MaterialBalanceEvaluator "balance"));
    MinMaxStrategy_init (Some "minmax_diff") None
      (Some (MaterialDiffEvaluator "diff")) ].

(** [ChessStrategy.update_stats]. *)
Definition update_stats (won : bool) (self : ChessStrategy) : ChessStrategy :=
  {| name := name self;
     stats := {| wins := if won then wins (stats self) + 1 else wins (stats self);
                 total := total (stats self) + 1 |};
     kind := kind self |}.

(** ** The state the harness runs in

    The registered strategy objects (mutated in place through
    [update_stats]), the state of the [random] module, seen as the stream of
    its coming draws, and the lines printed so far. *)
Record World : Type := {
  strategies : list ChessStrategy;
  random_draws : nat -> nat;
  stdout : list string
}.

(** A computation returns a value or raises, and leaves a world behind in
    both cases. *)
Definition M (A : Type) : Type := World -> Exc A * World.

#[global] Instance M_ret : MRet M := fun A a w => (inr a, w).

#[global] Instance M_bind : MBind M := fun A B k c w =>
  match c w with
  | (inr a, w') => k a w'
  | (inl e, w') => (inl e, w')
  end.

Definition lift {A : Type} (r : Exc A) : M A := fun w => (r, w).

(** [for x in xs: state = body(state, x)]. *)
Fixpoint for_each {X S : Type} (body : S -> X -> M S) (xs : list X) (s : S) : M S :=
  match xs with
  | [] => mret s
  | x :: xs' => s' ← body s x; for_each body xs' s'
  end.

(** [print(line)]. *)
Definition print (line : string) : M unit := fun w =>
  (inr (), {| strategies := strategies w;
              random_draws := random_draws w;
              stdout := stdout w ++ [line] |}).

(** [random.choice(seq)]: [IndexError] on an empty sequence, else the
    element at a position below [len(seq)] taken from the next draw. *)
Definition choice {A : Type} (seq : list A) : M A := fun w =>
  match seq with
  | [] => (inl IndexError, w)
  | x :: _ =>
      (inr (nth (random_draws w 0 `mod` length seq) seq x),
       {| strategies := strategies w;
          random_draws := fun n => random_draws w (S n);
          stdout := stdout w |})
  end.

(** [RandomStrategy.get_move]. *)
Definition RandomStrategy_get_move (board : Board) : M (option string) :=
  move ← choice (legal_moves board);
  mret (Some (uci move)).

(** [strategy.get_move(board)], by the class of [strategy]. *)
Definition get_move (strategy : ChessStrategy) (board : Board) : M (option string) :=
  match kind strategy with
  | MinMax search => mret (MinMaxStrategy_get_move search board)
  | Random => RandomStrategy_get_move board
  end.

(** [strategy.update_stats(won)] on the [i]-th registered strategy. *)
Definition update_stats_at (i : nat) (won : bool) : M unit := fun w =>
  (inr (), {| strategies := alter (update_stats won) i (strategies w);
              random_draws := random_draws w;
              stdout := stdout w |}).

(** ** StrategyEvaluator *)

(** The text of one strategy in [print_stats]. *)
Definition stats_str (strategy : ChessStrategy) : string :=
  let stats := stats strategy in
  let win_rate :=
    Float.mul_int (Float.truediv (Z.of_nat (wins stats)) (Z.of_nat (total stats))) 100 in
  name strategy +:+ ": " +:+ pretty (wins stats) +:+ "/" +:+ pretty (total stats)
    +:+ " (" +:+ Float.format_1f win_rate +:+ "%)".

(** [StrategyEvaluator.print_stats]. *)
Definition print_stats : M unit := fun w =>
  let stats_strs :=
    fold_left (fun stats_strs strategy =>
                 if 0 <? total (stats strategy)
                 then stats_strs ++ [stats_str strategy]
                 else stats_strs)
              (strategies w) [] in
  print (join " | " stats_strs) w.

(** [actual == expected]: [None] equals no string. *)
Definition eq_move (actual : option string) (expected : string) : bool :=
  bool_decide (actual = Some expected).

(** The body of the loop of [evaluate_puzzle], for the strategy registered
    at index [i]: it answers, and its own statistics are updated. *)
Definition answer_and_record (board : Board) (expected : string)
    (some_success : bool) (entry : nat * ChessStrategy) : M bool :=
  let '(i, strategy) := entry in
  actual ← get_move strategy board;
  let some_success := if eq_move actual expected then true else some_success in
  update_stats_at i (eq_move actual expected);;
  mret some_success.

(** [StrategyEvaluator.evaluate_puzzle]: the loop visits the registered
    strategies in order. *)
Definition evaluate_puzzle (board : Board) (expected : string) : M bool := fun w =>
  for_each (answer_and_record board expected)
    (imap pair (strategies w)) false w.

(** The body of the loop of [evaluate_all], for one line of the file. *)
Definition evaluate_line (extractor : PuzzleExtractor) (line : string) : M unit :=
  '(board, solution_moves) ← lift (extract_puzzle extractor (strip line));
  expected ← lift (getitem solution_moves 0);
  some_success ← evaluate_puzzle board expected;
  if (some_success : bool) then print_stats else mret ().

(** [StrategyEvaluator.evaluate_all], on the lines [f] of the puzzle file
    as iterating over the open file yields them: [next(f)] takes the first
    line away, the loop runs over the others, and the final [print_stats]
    follows the loop. *)
Definition evaluate_all (extractor : PuzzleExtractor) (f : list string) : M unit :=
  match f with
  | [] => lift (inl StopIteration)
  | _ :: lines =>
      for_each (fun _ line => evaluate_line extractor line) lines ();;
      print_stats
  end.

End Program.

(** ** The search with its calls recorded

    The same recursion as [minmax], returning next to its result the calls
    made on the way, in order: every entry into [minmax] and every call of
    the evaluator, each with the arguments it received. *)

Section Trace.
Context `{E : RulesEngine}.

Inductive event : Type :=
  | minmax_called (board : Board) (player : Z) (init_board : option Board) (depth_now : Z)
  | evaluate_called (board init_board : Board) (player : Z).

Fixpoint minmax_traced (self : MinMaxStrategy) (plies : nat)
    (board : Board) (player : Z) (init_board : option Board) (depth_now : Z)
    : (Z * option Move) * list event :=
  let entry := minmax_called board player init_board depth_now in
  let init_board := or_board init_board board in
  let leaf :=
    ((evaluate (evaluator self) board init_board player, None),
     [entry; evaluate_called board init_board player]) in
  match plies with
  | O => leaf
  | S plies' =>
      match legal_moves board with
      | [] => leaf
      | moves =>
          let runs :=
            map (fun move =>
                   let new_board := apply_move board move in
                   let '((score, _), events) :=
                     minmax_traced self plies' new_board player
                       (Some init_board) (depth_now + 1) in
                   ((score, Some move), events))
                moves in
          (hd (0%Z, None) (sort_by_key fst (map fst runs)),
           entry :: concat (map snd runs))
      end
  end.

(** The player an event carries. *)
Definition event_player (ev : event) : Z :=
  match ev with
  | minmax_called _ player _ _ => player
  | evaluate_called _ _ player => player
  end.

(** The calls made by [MinMaxStrategy.get_move(board)]. *)
Definition get_move_trace (self : MinMaxStrategy) (board : Board) : list event :=
  snd (minmax_traced self (Z.to_nat (depth self - 0)) board 1 None 0).

End Trace.

(** [c in s]. *)
Fixpoint has_char (c : ascii) (s : string) : bool :=
  match s with
  | EmptyString => false
  | String c' s' => bool_decide (c' = c) || has_char c s'
  end.

(** ** The specification's wording, for comparison with the program *)

Section Reference.
Context `{E : RulesEngine}.

(** The score [minmax] records for a candidate move: the first component of
    [evaluate_move] at the next depth. *)
Definition candidate_score (self : MinMaxStrategy) (board : Board) (player : Z)
    (init_board : option Board) (depth_now : Z) (move : Move) : Z :=
  fst (evaluate_move self move player board (or_board init_board board)
         (depth_now + 1)%Z).

(** The side that is not [color]: Black for White, White for Black. *)
Definition other_side (color : Color) : Color :=
  if color then BLACK else WHITE.

(** Material of a side: the sum over piece kinds of count times standard
    value, pawn 1, knight 3, bishop 3, rook 5, queen 9, the king left out. *)
Definition material (board : Board) (color : Color) : Z :=
  let count piece_type := Z.of_nat (length (pieces board piece_type color)) in
  (1 * count PAWN + 3 * count KNIGHT + 3 * count BISHOP
   + 5 * count ROOK + 9 * count QUEEN)%Z.

(** The side to move has exactly one queen more than the other side, and as
    many pawns, knights, bishops and rooks. *)
Definition one_extra_queen (board : Board) : Prop :=
  let mover := turn board in
  let count piece_type color := length (pieces board piece_type color) in
  count QUEEN mover = count QUEEN (other_side mover) + 1 /\
  Forall (fun piece_type => count piece_type mover = count piece_type (other_side mover))
         [PAWN; KNIGHT; BISHOP; ROOK].

(** The field of a record that stands under the column [column] of a
    dataset whose header names the columns [header]. *)
Definition index_of (column : string) (header : list string) : option nat :=
  fst <$> list_find (fun c => c = column) header.

Definition field_named (header fields : list string) (column : string) : option string :=
  i ← index_of column header; fields !! i.

(** What a reader that resolves the columns [FEN] and [Moves] by name in the
    dataset's header returns for a record. *)
Definition decode_by_name (header fields : list string)
    : option (Exc (Board * list string)) :=
  fen ← field_named header fields "FEN";
  moves ← field_named header fields "Moves";
  Some (board ← Board_init fen; mret (board, split " " moves)).

(** A line of the file decodes to a puzzle: [extract_puzzle] returns the
    board, and the first of the solution moves is the expected one. *)
Definition decodes_to (extractor : PuzzleExtractor) (line : string)
    (puzzle : Board * string) : Prop :=
  exists solution_moves,
    extract_puzzle extractor (strip line) = inr (fst puzzle, solution_moves) /\
    solution_moves !! 0 = Some (snd puzzle).

(** A strategy of the class [MinMaxStrategy]. *)
Definition is_MinMax (strategy : ChessStrategy) : Prop :=
  exists search, kind strategy = MinMax search.

(** A strategy can answer on [board] unless it draws at random from an empty
    list of legal moves. *)
Definition can_answer (board : Board) (strategy : ChessStrategy) : Prop :=
  kind strategy = Random -> legal_moves board <> [].

(** [selectMove] of a strategy, together with the draws left to the random
    source; a strategy with nothing to select has no move. *)
Definition select_move (strategy : ChessStrategy) (board : Board) (draws : nat -> nat)
    : option string * (nat -> nat) :=
  match kind strategy with
  | MinMax search => (MinMaxStrategy_get_move search board, draws)
  | Random =>
      match legal_moves board with
      | [] => (None, draws)
      | move :: moves =>
          (Some (uci (nth (draws 0 `mod` length (move :: moves)) (move :: moves) move)),
           fun n => draws (S n))
      end
  end.

(** Every registered strategy, in registration order, selects its move on
    the puzzle's position and records whether it is the expected one. *)
Fixpoint record_outcomes (board : Board) (expected : string)
    (strategies : list ChessStrategy) (draws : nat -> nat)
    : list ChessStrategy * list bool * (nat -> nat) :=
  match strategies with
  | [] => ([], [], draws)
  | strategy :: rest =>
      let '(move, draws) := select_move strategy board draws in
      let correct := eq_move move expected in
      let '(rest', flags, draws) := record_outcomes board expected rest draws in
      (update_stats correct strategy :: rest', correct :: flags, draws)
  end.

(** The success rate as a percentage with one decimal: successes over
    attempts, times 100, on binary64 floats. *)
Definition percentage (successes attempts : nat) : string :=
  Float.format_1f
    (Float.mul_int (Float.truediv (Z.of_nat successes) (Z.of_nat attempts)) 100).

(** The line of one strategy in a snapshot:
    [name: successes/attempts (rate%)]. *)
Definition stats_line (strategy : ChessStrategy) : string :=
  let successes := wins (stats strategy) in
  let attempts := total (stats strategy) in
  name strategy +:+ ": " +:+ pretty successes +:+ "/" +:+ pretty attempts
    +:+ " (" +:+ percentage successes attempts +:+ "%)".

(** A stats snapshot: the strategies with [attempts > 0], each as
    [name: successes/attempts (rate%)], joined in registration order. *)
Definition snapshot (strategies : list ChessStrategy) : string :=
  join " | "
    (map stats_line (filter (fun strategy => 0 < total (stats strategy)) strategies)).

(** The snapshots a run over [puzzles] emits: one after each puzzle some
    strategy answered correctly, and one after the last puzzle. *)
Fixpoint reports (strategies : list ChessStrategy) (draws : nat -> nat)
    (puzzles : list (Board * string)) : list string :=
  match puzzles with
  | [] => [snapshot strategies]
  | (board, expected) :: puzzles' =>
      let '(strategies', flags, draws') :=
        record_outcomes board expected strategies draws in
      (if existsb id flags then [snapshot strategies'] else [])
        ++ reports strategies' draws' puzzles'
  end.

End Reference.

(** ** A rules engine given by a table of positions

    A position is its FEN text, from which the side to move and the piece
    placement are read, together with the two facts that need the rules of
    chess: whether it is checkmate, and its legal moves in the engine's
    enumeration order, each with the position it leads to.  A move is its UCI
    text.  The table stops at the positions one move below a root: their own
    legal moves are left out, and no run below goes that far. *)

Module Table.

#[local] Unset Elimination Schemes.
Inductive Position : Type :=
  | Pos (fen : string) (checkmate : bool) (moves : list (string * Position)).

#[local] Set Elimination Schemes.

Definition fen (p : Position) : string := let 'Pos f _ _ := p in f.
Definition checkmate (p : Position) : bool := let 'Pos _ c _ := p in c.
Definition moves (p : Position) : list (string * Position) := let 'Pos _ _ ms := p in ms.

(** The piece placement of a FEN: ranks 8 down to 1 separated by [/], in
    each rank the files a to h, a digit standing for that many empty squares
    and a letter for a piece. *)
Fixpoint placement (s : string) (rank file : nat) : list (Square * ascii) :=
  match s with
  | EmptyString => []
  | String c s' =>
      let n := nat_of_ascii c in
      if decide (c = "/"%char) then placement s' (rank - 1) 0
      else if (48 <=? n) && (n <=? 57) then placement s' rank (file + (n - 48))
      else (rank * 8 + file, c) :: placement s' rank (file + 1)
  end.

(** The letter of a piece: lower case for Black, upper case for White. *)
Definition piece_symbol (piece_type : PieceType) (color : Color) : ascii :=
  match piece_type, color with
  | PAWN, false => "p" | KNIGHT, false => "n" | BISHOP, false => "b"
  | ROOK, false => "r" | QUEEN, false => "q" | KING, false => "k"
  | PAWN, true => "P" | KNIGHT, true => "N" | BISHOP, true => "B"
  | ROOK, true => "R" | QUEEN, true => "Q" | KING, true => "K"
  end%char.

Definition fen_field (i : nat) (p : Position) : string :=
  default EmptyString (split " " (fen p) !! i).

Definition pieces_of (p : Position) (piece_type : PieceType) (color : Color) : list Square :=
  map fst
    (filter (fun entry => snd entry = piece_symbol piece_type color)
            (placement (fen_field 0 p) 7 0)).

Definition turn_of (p : Position) : Color :=
  bool_decide (fen_field 1 p = "w").

Definition push_of (p : Position) (move : string) : Position :=
  default p (snd <$> find (fun entry => bool_decide (fst entry = move)) (moves p)).

(** Fool's mate, after 1. f3 e5 2. g4 Qh4#: White is checkmated. *)
Definition fools_mate : Position :=
  Pos "rnb1kbnr/pppp1ppp/8/4p3/6Pq/5P2/PPPPP2P/RNBQKBNR w KQkq - 1 3" true [].

(** White to move mates on the back rank with Re8, and can instead win the
    bishop with Rxa1.  The seventeen legal moves: the king's, then the rook's,
    each to its target squares from h8 down to a1. *)
Definition back_rank : Position :=
  Pos "6k1/5ppp/8/8/8/8/8/b3R1K1 w - - 0 1" false
    [ ("g1h2", Pos "6k1/5ppp/8/8/8/8/7K/b3R3 b - - 1 1" false []);
      ("g1g2", Pos "6k1/5ppp/8/8/8/8/6K1/b3R3 b - - 1 1" false []);
      ("g1f2", Pos "6k1/5ppp/8/8/8/8/5K2/b3R3 b - - 1 1" false []);
      ("g1h1", Pos "6k1/5ppp/8/8/8/8/8/b3R2K b - - 1 1" false []);
      ("g1f1", Pos "6k1/5ppp/8/8/8/8/8/b3RK2 b - - 1 1" false []);
      ("e1e8", Pos "4R1k1/5ppp/8/8/8/8/8/b5K1 b - - 1 1" true []);
      ("e1e7", Pos "6k1/4Rppp/8/8/8/8/8/b5K1 b - - 1 1" false []);
      ("e1e6", Pos "6k1/5ppp/4R3/8/8/8/8/b5K1 b - - 1 1" false []);
      ("e1e5", Pos "6k1/5ppp/8/4R3/8/8/8/b5K1 b - - 1 1" false []);
      ("e1e4", Pos "6k1/5ppp/8/8/4R3/8/8/b5K1 b - - 1 1" false []);
      ("e1e3", Pos "6k1/5ppp/8/8/8/4R3/8/b5K1 b - - 1 1" false []);
      ("e1e2", Pos "6k1/5ppp/8/8/8/8/4R3/b5K1 b - - 1 1" false []);
      ("e1f1", Pos "6k1/5ppp/8/8/8/8/8/b4RK1 b - - 1 1" false []);
      ("e1d1", Pos "6k1/5ppp/8/8/8/8/8/b2R2K1 b - - 1 1" false []);
      ("e1c1", Pos "6k1/5ppp/8/8/8/8/8/b1R3K1 b - - 1 1" false []);
      ("e1b1", Pos "6k1/5ppp/8/8/8/8/8/bR4K1 b - - 1 1" false []);
      ("e1a1", Pos "6k1/5ppp/8/8/8/8/8/R5K1 b - - 0 1" false []) ].

(** The positions [chess.Board(fen)] can build here. *)
Definition book : list Position := [fools_mate; back_rank].

#[global] Instance engine : RulesEngine := {|
  Board := Position;
  Move := string;
  turn := turn_of;
  pieces := pieces_of;
  is_checkmate := checkmate;
  legal_moves := fun p => map fst (moves p);
  push := push_of;
  Move_bool := fun move => negb (bool_decide (move = "0000"));
  uci := fun move => move;
  Board_of_fen := fun text => find (fun p => bool_decide (fen p = text)) book
|}.

(** A record of a dataset in the column order of [HEADERS], and the same
    record in a dataset that puts the [Moves] column before the [FEN]
    column. *)
Definition ordered_record : list string :=
  ["00008"; "6k1/5ppp/8/8/8/8/8/b3R1K1 w - - 0 1"; "e1e8"; "600"; "80"; "90";
   "1000"; "backRankMate mateIn1 oneMove"; "https://lichess.org/abcdefgh#1"; EmptyString].

Definition reordered_header : list string :=
  ["PuzzleId"; "Moves"; "FEN"; "Rating"; "RatingDeviation"; "Popularity";
   "NbPlays"; "Themes"; "GameUrl"; "OpeningTags"].

Definition reordered_record : list string :=
  ["00008"; "e1e8"; "6k1/5ppp/8/8/8/8/8/b3R1K1 w - - 0 1"; "600"; "80"; "90";
   "1000"; "backRankMate mateIn1 oneMove"; "https://lichess.org/abcdefgh#1"; EmptyString].

(** One-ply searches with the two evaluators. *)
Definition balance_search : MinMaxStrategy :=
  {| depth := 1; evaluator := MaterialBalanceEvaluator "balance" |}.

Definition diff_search : MinMaxStrategy :=
  {| depth := 1; evaluator := MaterialDiffEvaluator "diff" |}.

(** The strategies of [main] with their searches cut to one ply, before any
    puzzle; [draws] feeds the random strategy. *)
Definition start (draws : nat -> nat) : World :=
  {| strategies :=
       [ RandomStrategy_init;
         MinMaxStrategy_init (Some "minmax_balance") (Some 1%Z)
           (Some (MaterialBalanceEvaluator "balance"));
         MinMaxStrategy_init (Some "minmax_diff") (Some 1%Z)
           (Some (MaterialDiffEvaluator "diff")) ];
     random_draws := draws;
     stdout := [] |}.

(** The strategies of [main] as they are, and its two searches alone. *)
Definition start_main : World :=
  {| strategies := main_strategies; random_draws := fun _ => 0; stdout := [] |}.

Definition start_minmax : World :=
  {| strategies := tail main_strategies; random_draws := fun _ => 0; stdout := [] |}.

(** A puzzle file of a header and two records on the back-rank position,
    the first expecting the mate and the second the capture. *)
Definition puzzle_file : list string :=
  [ "PuzzleId,FEN,Moves,Rating,RatingDeviation,Popularity,NbPlays,Themes,GameUrl,OpeningTags"
      +:+ String "010"%char EmptyString;
    "00008,6k1/5ppp/8/8/8/8/8/b3R1K1 w - - 0 1,e1e8,600,80,90,1000,mateIn1,https://lichess.org/abcdefgh#1,"
      +:+ String "010"%char EmptyString;
    "00009,6k1/5ppp/8/8/8/8/8/b3R1K1 w - - 0 1,e1a1,600,80,90,1000,hangingPiece,https://lichess.org/abcdefgh#1,"
      +:+ String "010"%char EmptyString ].

(** The puzzles of [puzzle_file]. *)
Definition puzzles : list (Board * string) :=
  [(back_rank, "e1e8"); (back_rank, "e1a1")].

End Table.

(** ** More of the program and of what its runs depend on *)

Section Coverage.
Context `{E : RulesEngine}.

(** [StrategyEvaluator.add_strategy]: [self.strategies.append(strategy)]. *)
Definition add_strategy (strategy : ChessStrategy) : M unit := fun w =>
  (inr (), {| strategies := strategies w ++ [strategy];
              random_draws := random_draws w;
              stdout := stdout w |}).

(** The registrations of [main], on a [StrategyEvaluator] that has none. *)
Definition main_registration : M unit :=
  add_strategy RandomStrategy_init;;
  add_strategy (MinMaxStrategy_init (Some "minmax_balance") None
                  (Some (MaterialBalanceEvaluator "balance")));;
  add_strategy (MinMaxStrategy_init (Some "minmax_diff") None
                  (Some (MaterialDiffEvaluator "diff"))).

(** The positions a search of [plies] plies from [board] hands to the
    evaluator, in the order it reaches them: the positions at the cutoff and
    the positions without legal moves met before it. *)
Fixpoint leaves (plies : nat) (board : Board) : list Board :=
  match plies with
  | O => [board]
  | S plies' =>
      match legal_moves board with
      | [] => [board]
      | moves => concat (map (fun move => leaves plies' (apply_move board move)) moves)
      end
  end.

(** The evaluator calls among recorded events, with their arguments. *)
Fixpoint evaluator_calls (events : list event) : list (Board * Board * Z) :=
  match events with
  | [] => []
  | evaluate_called board init_board player :: events' =>
      (board, init_board, player) :: evaluator_calls events'
  | minmax_called _ _ _ _ :: events' => evaluator_calls events'
  end.

(** A search result with [c] taken off its score. *)
Definition shift_score (c : Z) (entry : Z * option Move) : Z * option Move :=
  ((fst entry - c)%Z, snd entry).

(** Two positions hold as many pieces of every kind that carries a value,
    for both sides. *)
Definition same_material_counts (board init_board : Board) : Prop :=
  forall piece_type color,
    piece_type <> KING ->
    length (pieces board piece_type color) = length (pieces init_board piece_type color).

(** The registered strategies and the random draws left after the puzzles
    have been answered in turn. *)
Fixpoint outcomes_after (strategies : list ChessStrategy) (draws : nat -> nat)
    (puzzles : list (Board * string)) : list ChessStrategy * (nat -> nat) :=
  match puzzles with
  | [] => (strategies, draws)
  | (board, expected) :: puzzles' =>
      let '(strategies', _, draws') :=
        record_outcomes board expected strategies draws in
      outcomes_after strategies' draws' puzzles'
  end.

(** The snapshots printed inside the loop of [evaluate_all], the final one
    left out. *)
Fixpoint progress_reports (strategies : list ChessStrategy) (draws : nat -> nat)
    (puzzles : list (Board * string)) : list string :=
  match puzzles with
  | [] => []
  | (board, expected) :: puzzles' =>
      let '(strategies', flags, draws') :=
        record_outcomes board expected strategies draws in
      (if existsb id flags then [snapshot strategies'] else [])
        ++ progress_reports strategies' draws' puzzles'
  end.

(** The statistics of [after] are those of [before] with [attempts] more
    attempts, of which between none and all succeeded; name and class are
    the same. *)
Definition counted (attempts : nat) (before after : ChessStrategy) : Prop :=
  name after = name before /\
  kind after = kind before /\
  total (stats after) = total (stats before) + attempts /\
  wins (stats before) <= wins (stats after) /\
  wins (stats after) <= wins (stats before) + attempts.

End Coverage.

(** Every character of [s] is white space. *)
Fixpoint all_space (s : string) : bool :=
  match s with
  | EmptyString => true
  | String c s' => isspace c && all_space s'
  end.

(** ** More positions for the table engine *)

Module Scenes.
Import Table.

(** Stalemate: White, to move, is not in check and has no legal move. *)
Definition stalemate : Position :=
  Pos "8/8/8/8/8/4k3/4p3/4K3 w - - 0 1" false [].

(** A pawn ending: White has the king move a1a2, the capture h2g3 and the
    advances h2h3 and h2h4; none of them gives check. *)
Definition pawn_ending : Position :=
  Pos "8/8/8/8/8/6p1/2k4P/K7 w - - 0 1" false
    [ ("a1a2", Pos "8/8/8/8/8/6p1/K1k4P/8 b - - 1 1" false []);
      ("h2g3", Pos "8/8/8/8/8/6P1/2k5/K7 b - - 0 1" false []);
      ("h2h3", Pos "8/8/8/8/8/6pP/2k5/K7 b - - 0 1" false []);
      ("h2h4", Pos "8/8/8/8/7P/6p1/2k5/K7 b - - 0 1" false []) ].

(** Black, to move, has a queen more than White and the same two pawns.
    The queen has no move; the six legal moves are the king's two, then the
    pawns' single and double advances. *)
Definition extra_queen : Position :=
  Pos "6kq/6pp/8/8/8/8/6PP/6K1 b - - 0 1" false
    [ ("g8f8", Pos "5k1q/6pp/8/8/8/8/6PP/6K1 w - - 1 2" false []);
      ("g8f7", Pos "7q/5kpp/8/8/8/8/6PP/6K1 w - - 1 2" false []);
      ("h7h6", Pos "6kq/6p1/7p/8/8/8/6PP/6K1 w - - 0 2" false []);
      ("g7g6", Pos "6kq/7p/6p1/8/8/8/6PP/6K1 w - - 0 2" false []);
      ("h7h5", Pos "6kq/6p1/8/7p/8/8/6PP/6K1 w - - 0 2" false []);
      ("g7g5", Pos "6kq/7p/8/6p1/8/8/6PP/6K1 w - - 0 2" false []) ].

(** A puzzle file of a header and three records on the back-rank position:
    the first expects the mate, the second a king move, the third the
    capture. *)
Definition mixed_file : list string :=
  [ "PuzzleId,FEN,Moves,Rating,RatingDeviation,Popularity,NbPlays,Themes,GameUrl,OpeningTags"
      +:+ String "010"%char EmptyString;
    "00008,6k1/5ppp/8/8/8/8/8/b3R1K1 w - - 0 1,e1e8,600,80,90,1000,mateIn1,https://lichess.org/abcdefgh#1,"
      +:+ String "010"%char EmptyString;
    "00009,6k1/5ppp/8/8/8/8/8/b3R1K1 w - - 0 1,g1h1 g8h8,600,80,90,1000,quietMove,https://lichess.org/abcdefgh#1,"
      +:+ String "010"%char EmptyString;
    "00010,6k1/5ppp/8/8/8/8/8/b3R1K1 w - - 0 1,e1a1,600,80,90,1000,hangingPiece,https://lichess.org/abcdefgh#1,"
      +:+ String "010"%char EmptyString ].

(** The puzzles of [mixed_file]. *)
Definition mixed_puzzles : list (Board * string) :=
  [(back_rank, "e1e8"); (back_rank, "g1h1"); (back_rank, "e1a1")].

(** A search that is cut off at the root. *)
Definition no_search : MinMaxStrategy :=
  {| depth := 0; evaluator := MaterialBalanceEvaluator "balance" |}.

(** A world whose random strategy stands between the two searches. *)
Definition start_mixed : World :=
  {| strategies :=
       [ MinMaxStrategy_init (Some "minmax_balance") None
           (Some (MaterialBalanceEvaluator "balance"));
         RandomStrategy_init;
         MinMaxStrategy_init (Some "minmax_diff") None
           (Some (MaterialDiffEvaluator "diff")) ];
     random_draws := fun _ => 0;
     stdout := [] |}.

(** One more one-ply search to register. *)
Definition late_search : ChessStrategy :=
  MinMaxStrategy_init (Some "late") (Some 1%Z) None.

(** A puzzle file whose second record has no FEN that [chess.Board] takes. *)
Definition broken_file : list string :=
  [ "PuzzleId,FEN,Moves,Rating,RatingDeviation,Popularity,NbPlays,Themes,GameUrl,OpeningTags"
      +:+ String "010"%char EmptyString;
    "00008,6k1/5ppp/8/8/8/8/8/b3R1K1 w - - 0 1,e1e8,600,80,90,1000,mateIn1,https://lichess.org/abcdefgh#1,"
      +:+ String "010"%char EmptyString;
    "00009,not a position,e1a1,600,80,90,1000,hangingPiece,https://lichess.org/abcdefgh#1,"
      +:+ String "010"%char EmptyString;
    "00010,6k1/5ppp/8/8/8/8/8/b3R1K1 w - - 0 1,e1a1,600,80,90,1000,hangingPiece,https://lichess.org/abcdefgh#1,"
      +:+ String "010"%char EmptyString ].

End Scenes.

(** * Properties *)

(** ** The head of a stable sort is the first minimum *)

Section SortFacts.
Context {A : Type} (key : A -> Z).

Lemma hd_insert_by_key (d x : A) (l : list A) :
  hd d (insert_by_key key x l) =
    match l with
    | [] => x
    | y :: _ => if (key x <=? key y)%Z then x else y
    end.
Proof.
  destruct l as [|y l]; simpl; [reflexivity|].
  destruct (key x <=? key y)%Z; reflexivity.
Qed.

Lemma length_insert_by_key (x : A) (l : list A) :
  length (insert_by_key key x l) = S (length l).
Proof.
  induction l as [|y l IH]; simpl; [reflexivity|].
  destruct (key x <=? key y)%Z; simpl; congruence.
Qed.

Lemma length_sort_by_key (l : list A) : length (sort_by_key key l) = length l.
Proof.
  induction l as [|x l IH]; simpl; [reflexivity|].
  rewrite length_insert_by_key; congruence.
Qed.

Lemma hd_sort_by_key (d : A) (l : list A) :
  l <> [] -> exists i, first_min key l i (hd d (sort_by_key key l)).
Proof.
  induction l as [|a l IH]; [congruence|intros _].
  simpl. rewrite hd_insert_by_key.
  destruct l as [|b l].
  - simpl. exists 0. repeat split.
    + intros [|j] y Hy; simpl in Hy; [|discriminate].
      injection Hy as <-. lia.
    + intros j y Hj; lia.
  - destruct IH as (i & Hi & Hmin & Hfirst); [congruence|].
    set (s := sort_by_key key (b :: l)) in *.
    assert (Hs : s <> []).
    { intros Hnil. apply (f_equal length) in Hnil.
      unfold s in Hnil. rewrite length_sort_by_key in Hnil. discriminate. }
    destruct s as [|m s']; [congruence|]. simpl in *.
    destruct (Z.leb_spec (key a) (key m)) as [Hle|Hlt].
    + exists 0. repeat split.
      * intros [|j] y Hy; simpl in Hy.
        -- injection Hy as <-. lia.
        -- specialize (Hmin j y Hy). lia.
      * intros j y Hj; lia.
    + exists (S i). repeat split.
      * exact Hi.
      * intros [|j] y Hy; simpl in Hy.
        -- injection Hy as <-. lia.
        -- exact (Hmin j y Hy).
      * intros [|j] y Hj Hy; simpl in Hy.
        -- injection Hy as <-. lia.
        -- apply (Hfirst j y); [lia|exact Hy].
Qed.

End SortFacts.

(** ** Evaluators *)

Section EvaluatorFacts.
Context `{E : RulesEngine}.

Local Open Scope Z_scope.

(** [sum_pieces] with the class table is the material of the side. *)
Lemma sum_pieces_material (board : Board) (color : Color) :
  sum_pieces board color None = material board color.
Proof. unfold sum_pieces, material. simpl. lia. Qed.

Lemma opponent_involutive (color : Color) : opponent (opponent color) = color.
Proof. destruct color; reflexivity. Qed.

Lemma opponent_other_side (color : Color) : opponent color = other_side color.
Proof. destruct color; reflexivity. Qed.

Lemma opponent_neq (color : Color) : opponent color <> color.
Proof. destruct color; discriminate. Qed.

(** C7. On a position that is not checkmate, [MaterialBalanceEvaluator]
    returns [player] times the material of the side to move minus the
    material of the other side, material counting pawn 1, knight 3, bishop 3,
    rook 5, queen 9 and no king; when the side to move has one extra queen
    and all else is equal, that is [player * 9]. *)
Theorem MaterialBalance_evaluate_material
    (name : string) (board init_board : Board) (player : Z) :
  is_checkmate board = false ->
  evaluate (MaterialBalanceEvaluator name) board init_board player =
    player * (material board (turn board) - material board (other_side (turn board)))
  /\ (one_extra_queen board ->
      evaluate (MaterialBalanceEvaluator name) board init_board player = player * 9).
Proof.
  intros Hmate.
  assert (Heval : evaluate (MaterialBalanceEvaluator name) board init_board player =
                  player * (material board (turn board)
                            - material board (other_side (turn board)))).
  { simpl. unfold MaterialBalanceEvaluator_evaluate. rewrite Hmate.
    rewrite !sum_pieces_material, opponent_other_side. reflexivity. }
  split; [exact Heval|].
  intros [Hqueen Hrest]. rewrite Heval. f_equal.
  unfold material.
  repeat match goal with
         | H : Forall _ (_ :: _) |- _ => apply Forall_cons in H; destruct H as [? H]
         end.
  lia.
Qed.

Lemma evaluate_on_checkmate
    (evaluator : BoardEvaluator) (board init_board : Board) (player : Z) :
  is_checkmate board = true ->
  evaluate evaluator board init_board player = - player.
Proof.
  intros Hmate.
  destruct evaluator; simpl;
    [unfold MaterialBalanceEvaluator_evaluate | unfold MaterialDiffEvaluator_evaluate];
    rewrite Hmate; reflexivity.
Qed.

(** C9. On a checkmate position [MaterialBalanceEvaluator] and
    [MaterialDiffEvaluator] both return exactly [- player], for [player] 1
    and -1 as for any other, whatever the material on the board and whatever
    the reference position. *)
Theorem evaluate_checkmate
    (name : string) (board init_board : Board) (player : Z) :
  is_checkmate board = true ->
  evaluate (MaterialBalanceEvaluator name) board init_board player = - player /\
  evaluate (MaterialDiffEvaluator name) board init_board player = - player.
Proof.
  intros Hmate. split; apply evaluate_on_checkmate; exact Hmate.
Qed.

(** C8, amended. [MaterialDiffEvaluator] on a position taken as its own
    reference returns 0 when the position is not checkmate, and [- player]
    when it is. *)
Theorem MaterialDiff_evaluate_self (name : string) (board : Board) (player : Z) :
  evaluate (MaterialDiffEvaluator name) board board player =
    if is_checkmate board then - player else 0.
Proof.
  simpl. unfold MaterialDiffEvaluator_evaluate.
  destruct (is_checkmate board); [reflexivity|]. lia.
Qed.

End EvaluatorFacts.

(** ** The search *)

Section SearchFacts.
Context `{E : RulesEngine}.

Local Open Scope Z_scope.

(** [minmax] satisfies the equation that is its body in the program. *)
Lemma minmax_eq (self : MinMaxStrategy) (board : Board) (player : Z)
    (init_board : option Board) (depth_now : Z) :
  minmax self board player init_board depth_now =
    let init_board := or_board init_board board in
    if depth self <=? depth_now
    then (evaluate (evaluator self) board init_board player, None)
    else
      match legal_moves board with
      | [] => (evaluate (evaluator self) board init_board player, None)
      | moves =>
          hd (0, None)
             (sort_by_key fst
                (map (fun move =>
                        evaluate_move self move player board init_board (depth_now + 1))
                     moves))
      end.
Proof.
  unfold minmax. cbv zeta.
  destruct (Z.leb_spec (depth self) depth_now) as [Hle|Hlt].
  - replace (Z.to_nat (depth self - depth_now)) with O by lia. reflexivity.
  - replace (Z.to_nat (depth self - depth_now))
      with (S (Z.to_nat (depth self - (depth_now + 1)))) by lia.
    cbn [minmax_plies].
    destruct (legal_moves board) as [|move moves]; [reflexivity|].
    reflexivity.
Qed.

Lemma evaluate_move_snd (self : MinMaxStrategy) (move : Move) (player : Z)
    (board init_board : Board) (depth_now : Z) :
  snd (evaluate_move self move player board init_board depth_now) = Some move.
Proof.
  unfold evaluate_move.
  destruct (minmax self (apply_move board move) player (Some init_board) depth_now).
  reflexivity.
Qed.

(** C1. At any ply above the cutoff and on any position with a legal move,
    [minmax] returns a candidate move with its score, that score is the least
    among the candidates' scores, and every candidate enumerated before the
    returned move scores strictly more: the first minimum, for whichever side
    is to move. *)
Theorem minmax_first_minimum (self : MinMaxStrategy) (board : Board) (player : Z)
    (init_board : option Board) (depth_now : Z) :
  depth_now < depth self ->
  legal_moves board <> [] ->
  exists (i : nat) (move : Move),
    legal_moves board !! i = Some move /\
    minmax self board player init_board depth_now =
      (candidate_score self board player init_board depth_now move, Some move) /\
    (forall j other, legal_moves board !! j = Some other ->
       candidate_score self board player init_board depth_now move
       <= candidate_score self board player init_board depth_now other) /\
    (forall j other, (j < i)%nat -> legal_moves board !! j = Some other ->
       candidate_score self board player init_board depth_now move
       < candidate_score self board player init_board depth_now other).
Proof.
  intros Hdepth Hmoves.
  rewrite minmax_eq. cbv zeta.
  destruct (Z.leb_spec (depth self) depth_now) as [Hle|_]; [lia|].
  destruct (legal_moves board) as [|m0 ms] eqn:Hlegal; [congruence|].
  set (moves := m0 :: ms) in *.
  set (f := fun move => evaluate_move self move player board
                          (or_board init_board board) (depth_now + 1)).
  destruct (hd_sort_by_key fst (0, None) (map f moves)) as (i & Hi & Hmin & Hfirst).
  { unfold moves. simpl. congruence. }
  set (best := hd (0, None) (sort_by_key fst (map f moves))) in *.
  rewrite list_lookup_fmap in Hi.
  destruct (moves !! i) as [move|] eqn:Hmove; [|discriminate].
  simpl in Hi. injection Hi as Hbest.
  exists i, move.
  assert (Hscore : fst best = candidate_score self board player init_board depth_now move).
  { rewrite <- Hbest. reflexivity. }
  split; [exact Hmove|].
  split.
  { rewrite <- Hscore.
    rewrite (surjective_pairing best) at 1. f_equal.
    rewrite <- Hbest. apply evaluate_move_snd. }
  split.
  - intros j other Hother. rewrite <- Hscore.
    apply (Hmin j (f other)).
    rewrite list_lookup_fmap, Hother. reflexivity.
  - intros j other Hj Hother. rewrite <- Hscore.
    apply (Hfirst j (f other)); [exact Hj|].
    rewrite list_lookup_fmap, Hother. reflexivity.
Qed.

End SearchFacts.

(** ** The calls of a search *)

Section TraceFacts.
Context `{E : RulesEngine}.

Local Open Scope Z_scope.

(** The recorded search returns what the search returns. *)
Lemma minmax_traced_result (self : MinMaxStrategy) (plies : nat) :
  forall (board : Board) (player : Z) (init_board : option Board) (depth_now : Z),
    fst (minmax_traced self plies board player init_board depth_now) =
    minmax_plies self plies board player (or_board init_board board).
Proof.
  induction plies as [|plies IH]; intros board player init_board depth_now.
  - reflexivity.
  - cbn [minmax_traced minmax_plies].
    destruct (legal_moves board) as [|m0 ms]; [reflexivity|].
    cbn [fst]. f_equal. f_equal.
    rewrite map_map. apply map_ext. intros move.
    specialize (IH (apply_move board move) player
                   (Some (or_board init_board board)) (depth_now + 1)).
    cbn [or_board] in IH. rewrite <- IH.
    destruct (minmax_traced self plies (apply_move board move) player
                (Some (or_board init_board board)) (depth_now + 1))
      as [[score best] events].
    reflexivity.
Qed.

Lemma minmax_traced_player (self : MinMaxStrategy) (plies : nat) :
  forall (board : Board) (player : Z) (init_board : option Board) (depth_now : Z),
    Forall (fun ev => event_player ev = player)
           (snd (minmax_traced self plies board player init_board depth_now)).
Proof.
  induction plies as [|plies IH]; intros board player init_board depth_now.
  - repeat constructor.
  - cbn [minmax_traced].
    destruct (legal_moves board) as [|m0 ms]; [repeat constructor|].
    cbn [snd]. constructor; [reflexivity|].
    apply Forall_concat. rewrite map_map. apply Forall_map.
    apply Forall_forall. intros move _.
    specialize (IH (apply_move board move) player
                   (Some (or_board init_board board)) (depth_now + 1)).
    destruct (minmax_traced self plies (apply_move board move) player
                (Some (or_board init_board board)) (depth_now + 1))
      as [[score best] events].
    exact IH.
Qed.

(** C10. In the search run by [MinMaxStrategy.get_move], every call of
    [minmax] and every call of the evaluator receives [player = 1], so a
    checkmate position met anywhere in the search is evaluated to [-1]; the
    recorded search is the search [get_move] runs. *)
Theorem get_move_player_is_one (self : MinMaxStrategy) (board : Board) :
  Forall (fun ev =>
            match ev with
            | minmax_called _ player _ _ => player = 1
            | evaluate_called b init_board player =>
                player = 1 /\
                (is_checkmate b = true ->
                 evaluate (evaluator self) b init_board player = -1)
            end)
         (get_move_trace self board)
  /\ fst (minmax_traced self (Z.to_nat (depth self - 0)) board 1 None 0) =
     minmax self board 1 None 0.
Proof.
  split.
  - unfold get_move_trace.
    eapply Forall_impl; [apply minmax_traced_player|].
    intros [b player init_board depth_now | b init_board player] Hplayer;
      simpl in Hplayer; [exact Hplayer|].
    split; [exact Hplayer|].
    intros Hmate. rewrite evaluate_on_checkmate by exact Hmate. lia.
  - apply minmax_traced_result.
Qed.

End TraceFacts.

(** ** Text *)

Lemma split_no_sep (sep : ascii) (s : string) :
  has_char sep s = false -> split sep s = [s].
Proof.
  induction s as [|c s IH]; simpl; [reflexivity|].
  intros Hs. apply orb_false_elim in Hs as [Hc Hs].
  apply bool_decide_eq_false in Hc.
  destruct (decide (c = sep)) as [->|_]; [congruence|].
  rewrite IH by exact Hs. reflexivity.
Qed.

Lemma split_app_sep (sep : ascii) (s rest : string) :
  has_char sep s = false ->
  split sep (s +:+ String sep rest) = s :: split sep rest.
Proof.
  induction s as [|c s IH]; intros Hs.
  - simpl. destruct (decide (sep = sep)); [reflexivity|congruence].
  - simpl in Hs. apply orb_false_elim in Hs as [Hc Hs].
    apply bool_decide_eq_false in Hc.
    change (String c s +:+ String sep rest) with (String c (s +:+ String sep rest)).
    cbn [split].
    destruct (decide (c = sep)) as [->|_]; [congruence|].
    rewrite IH by exact Hs. reflexivity.
Qed.

(** Splitting a joined record gives its fields back when no field holds the
    separator. *)
Lemma split_join (sep : ascii) (fields : list string) :
  fields <> [] ->
  Forall (fun field => has_char sep field = false) fields ->
  split sep (join (String sep EmptyString) fields) = fields.
Proof.
  induction fields as [|field fields IH]; [congruence|intros _ Hfields].
  apply Forall_cons in Hfields as [Hfield Hfields].
  destruct fields as [|field' fields].
  - simpl. apply split_no_sep, Hfield.
  - assert (Hjoin : join (String sep EmptyString) (field :: field' :: fields) =
                    field +:+ String sep (join (String sep EmptyString) (field' :: fields))).
    { change (join (String sep EmptyString) (field :: field' :: fields))
        with (field +:+ (String sep EmptyString
                +:+ join (String sep EmptyString) (field' :: fields))).
      reflexivity. }
    rewrite Hjoin, split_app_sep by exact Hfield.
    rewrite IH by (congruence || exact Hfields). reflexivity.
Qed.

(** ** Strategies in the harness *)

Section HarnessFacts.
Context `{E : RulesEngine}.

(** C3, where the program fails it.  [RandomStrategy.get_move] on a position
    without legal moves raises [IndexError] and leaves the world as it was. *)
Theorem RandomStrategy_get_move_terminal (board : Board) (w : World) :
  legal_moves board = [] ->
  RandomStrategy_get_move board w = (inl IndexError, w).
Proof.
  intros Hmoves. unfold RandomStrategy_get_move, mbind, M_bind, choice.
  rewrite Hmoves. reflexivity.
Qed.

Lemma MinMaxStrategy_get_move_terminal (search : MinMaxStrategy) (board : Board) :
  legal_moves board = [] -> MinMaxStrategy_get_move search board = None.
Proof.
  intros Hmoves. unfold MinMaxStrategy_get_move, minmax.
  destruct (Z.to_nat (depth search - 0)) as [|plies]; simpl; [reflexivity|].
  rewrite Hmoves. reflexivity.
Qed.

(** A strategy that can answer answers as [select_move] says, without
    raising. *)
Lemma get_move_select (strategy : ChessStrategy) (board : Board)
    (ss : list ChessStrategy) (draws : nat -> nat) (out : list string) :
  can_answer board strategy ->
  get_move strategy board
    {| strategies := ss; random_draws := draws; stdout := out |} =
  (inr (fst (select_move strategy board draws)),
   {| strategies := ss;
      random_draws := snd (select_move strategy board draws);
      stdout := out |}).
Proof.
  intros Hcan. unfold get_move, select_move, can_answer in *.
  destruct (kind strategy) as [search|]; [reflexivity|].
  unfold RandomStrategy_get_move, mbind, M_bind, choice.
  destruct (legal_moves board) as [|move moves]; [|reflexivity].
  exfalso. apply Hcan; reflexivity.
Qed.

Lemma evaluate_puzzle_loop (board : Board) (expected : string) (out : list string) :
  forall (todo done : list ChessStrategy) (draws : nat -> nat) (acc : bool),
    Forall (can_answer board) todo ->
    for_each (answer_and_record board expected)
      (imap (fun i strategy => (length done + i, strategy)) todo) acc
      {| strategies := done ++ todo; random_draws := draws; stdout := out |} =
    let '(todo', flags, draws') := record_outcomes board expected todo draws in
    (inr (acc || existsb id flags),
     {| strategies := done ++ todo'; random_draws := draws'; stdout := out |}).
Proof.
  induction todo as [|strategy todo IH]; intros done draws acc Hcan.
  - simpl. rewrite orb_false_r. reflexivity.
  - apply Forall_cons in Hcan as [Hcan Hrest].
    rewrite imap_cons. cbn [for_each record_outcomes].
    unfold mbind at 1. unfold M_bind at 1.
    unfold answer_and_record at 1.
    unfold mbind at 1. unfold M_bind at 1.
    rewrite get_move_select by exact Hcan.
    destruct (select_move strategy board draws) as [actual draws1]. cbn [fst snd].
    unfold mbind at 1. unfold M_bind at 1.
    unfold update_stats_at at 1. cbn [strategies random_draws stdout].
    unfold mret at 1. unfold M_ret at 1.
    rewrite alter_app_r. cbn [alter list_alter].
    specialize (IH (done ++ [update_stats (eq_move actual expected) strategy])
                   draws1
                   (if eq_move actual expected then true else acc) Hrest).
    rewrite <- (assoc_L (++)) in IH. cbn [app] in IH.
    rewrite (imap_ext _ (fun i s =>
               (length (done ++ [update_stats (eq_move actual expected) strategy]) + i, s))).
    2:{ intros i s _. simpl. rewrite length_app. simpl. f_equal. lia. }
    rewrite IH.
    destruct (record_outcomes board expected todo draws1) as [[todo' flags] draws'].
    rewrite <- (assoc_L (++)). cbn [app existsb id].
    f_equal. f_equal.
    destruct (eq_move actual expected), acc; reflexivity.
Qed.

Lemma evaluate_puzzle_outcomes (board : Board) (expected : string) (w : World) :
  Forall (can_answer board) (strategies w) ->
  evaluate_puzzle board expected w =
    let '(strategies', flags, draws') :=
      record_outcomes board expected (strategies w) (random_draws w) in
    (inr (existsb id flags),
     {| strategies := strategies'; random_draws := draws'; stdout := stdout w |}).
Proof.
  intros Hcan. unfold evaluate_puzzle.
  pose proof (evaluate_puzzle_loop board expected (stdout w)
                (strategies w) [] (random_draws w) false Hcan) as Hloop.
  simpl in Hloop. destruct w as [ss draws out]. simpl in *.
  exact Hloop.
Qed.

Lemma record_outcomes_terminal (board : Board) (expected : string)
    (ss : list ChessStrategy) (draws : nat -> nat) :
  legal_moves board = [] ->
  Forall is_MinMax ss ->
  record_outcomes board expected ss draws =
    (map (update_stats false) ss, map (fun _ => false) ss, draws).
Proof.
  intros Hmoves. induction 1 as [|strategy ss [search Hkind] _ IH]; [reflexivity|].
  simpl. unfold select_move. rewrite Hkind.
  rewrite MinMaxStrategy_get_move_terminal by exact Hmoves.
  rewrite IH. reflexivity.
Qed.

(** C6. On a position without legal moves [MinMaxStrategy.get_move] returns
    [None], in any world and without raising; [None] equals no expected move
    text; and the harness's loop body, run for a [MinMaxStrategy] registered
    at any index among any other strategies, neither raises nor reports a
    success: it leaves [some_success] as it was and updates that strategy
    with one more attempt and the same number of successes.  Over
    registered [MinMaxStrategy] objects alone the whole of [evaluate_puzzle]
    returns [False]. *)
Theorem MinMax_no_move_is_a_miss (board : Board) (search : MinMaxStrategy)
    (strategy : ChessStrategy) (i : nat) (expected : string)
    (some_success : bool) (w : World) :
  legal_moves board = [] ->
  kind strategy = MinMax search ->
  MinMaxStrategy_get_move search board = None /\
  get_move strategy board w = (inr None, w) /\
  (forall text, eq_move None text = false) /\
  answer_and_record board expected some_success (i, strategy) w =
    (inr some_success,
     {| strategies := alter (update_stats false) i (strategies w);
        random_draws := random_draws w;
        stdout := stdout w |}) /\
  (strategies w !! i = Some strategy ->
   alter (update_stats false) i (strategies w) !! i =
     Some (update_stats false strategy)) /\
  total (stats (update_stats false strategy)) = total (stats strategy) + 1 /\
  wins (stats (update_stats false strategy)) = wins (stats strategy) /\
  (Forall is_MinMax (strategies w) ->
   evaluate_puzzle board expected w =
     (inr false,
      {| strategies := map (update_stats false) (strategies w);
         random_draws := random_draws w;
         stdout := stdout w |})).
Proof.
  intros Hmoves Hkind.
  assert (Hnone : MinMaxStrategy_get_move search board = None)
    by (apply MinMaxStrategy_get_move_terminal, Hmoves).
  assert (Hget : get_move strategy board w = (inr None, w)).
  { unfold get_move. rewrite Hkind, Hnone. reflexivity. }
  split; [exact Hnone|]. split; [exact Hget|].
  split; [intros text; reflexivity|].
  split.
  { unfold answer_and_record, mbind, M_bind. rewrite Hget. reflexivity. }
  split.
  { intros Hi. rewrite list_lookup_alter, Hi.
    destruct (decide (i = i)); [reflexivity|congruence]. }
  split; [reflexivity|]. split; [reflexivity|].
  intros Hkinds. rewrite evaluate_puzzle_outcomes.
  - rewrite record_outcomes_terminal by assumption.
    f_equal. f_equal. clear.
    induction (strategies w) as [|s ss IH]; [reflexivity|exact IH].
  - eapply Forall_impl; [exact Hkinds|].
    intros s [search' Hs] Hrandom. congruence.
Qed.

End HarnessFacts.

(** ** A run over a puzzle file *)

Section RunFacts.
Context `{E : RulesEngine}.

Lemma stats_strs_filter (l : list ChessStrategy) (acc : list string) :
  fold_left (fun stats_strs strategy =>
               if 0 <? total (stats strategy)
               then stats_strs ++ [stats_str strategy]
               else stats_strs)
            l acc =
  acc ++ map stats_str (filter (fun strategy => 0 < total (stats strategy)) l).
Proof.
  revert acc. induction l as [|strategy l IH]; intros acc; simpl.
  - rewrite app_nil_r. reflexivity.
  - rewrite IH, filter_cons.
    destruct (Nat.ltb_spec 0 (total (stats strategy))) as [Hpos|Hzero].
    + rewrite decide_True by exact Hpos. simpl.
      rewrite <- (assoc_L (++)). reflexivity.
    + rewrite decide_False by lia. reflexivity.
Qed.

(** The text [print_stats] builds for a strategy is the snapshot's line. *)
Lemma stats_str_line (strategy : ChessStrategy) :
  stats_str strategy = stats_line strategy.
Proof. reflexivity. Qed.

(** [print_stats] prints the snapshot of the registered strategies. *)
Lemma print_stats_snapshot (w : World) :
  print_stats w =
    (inr (), {| strategies := strategies w;
                random_draws := random_draws w;
                stdout := stdout w ++ [snapshot (strategies w)] |}).
Proof.
  unfold print_stats, print, snapshot. rewrite stats_strs_filter.
  rewrite (map_ext _ _ stats_str_line). reflexivity.
Qed.

Lemma record_outcomes_can_answer (board board' : Board) (expected : string)
    (ss : list ChessStrategy) (draws : nat -> nat) :
  Forall (can_answer board') ss ->
  Forall (can_answer board') (fst (fst (record_outcomes board expected ss draws))).
Proof.
  revert draws. induction ss as [|strategy ss IH]; intros draws Hcan; [constructor|].
  apply Forall_cons in Hcan as [Hcan Hrest]. simpl.
  destruct (select_move strategy board draws) as [move draws1].
  specialize (IH draws1 Hrest).
  destruct (record_outcomes board expected ss draws1) as [[ss' flags] draws'].
  simpl in *. constructor; [exact Hcan|exact IH].
Qed.

(** One line of the file: the strategies record their outcomes, and the
    snapshot is printed exactly when some strategy answered correctly. *)
Lemma evaluate_line_outcomes (extractor : PuzzleExtractor) (line : string)
    (board : Board) (expected : string) (w : World) :
  decodes_to extractor line (board, expected) ->
  Forall (can_answer board) (strategies w) ->
  evaluate_line extractor line w =
    let '(strategies', flags, draws') :=
      record_outcomes board expected (strategies w) (random_draws w) in
    (inr (),
     {| strategies := strategies';
        random_draws := draws';
        stdout := stdout w
                  ++ (if existsb id flags then [snapshot strategies'] else []) |}).
Proof.
  intros (solution_moves & Hline & Hfirst) Hcan. simpl in Hline, Hfirst.
  unfold evaluate_line.
  unfold mbind at 1. unfold M_bind at 1. unfold lift at 1. rewrite Hline.
  unfold mbind at 1. unfold M_bind at 1. unfold lift at 1, getitem.
  rewrite Hfirst.
  unfold mbind at 1. unfold M_bind at 1.
  rewrite evaluate_puzzle_outcomes by exact Hcan.
  destruct (record_outcomes board expected (strategies w) (random_draws w))
    as [[strategies' flags] draws'].
  destruct (existsb id flags).
  - rewrite print_stats_snapshot. reflexivity.
  - unfold mret, M_ret. rewrite app_nil_r. reflexivity.
Qed.

Lemma evaluate_lines_reports (extractor : PuzzleExtractor) :
  forall (lines : list string) (puzzles : list (Board * string)) (w : World),
    Forall2 (decodes_to extractor) lines puzzles ->
    Forall (fun puzzle => Forall (can_answer (fst puzzle)) (strategies w)) puzzles ->
    exists w',
      (for_each (fun _ line => evaluate_line extractor line) lines ();; print_stats) w
        = (inr (), w') /\
      stdout w' = stdout w ++ reports (strategies w) (random_draws w) puzzles.
Proof.
  intros lines puzzles w Hdecode. revert w.
  induction Hdecode as [|line [board expected] lines puzzles Hline _ IH];
    intros w Hcan.
  - eexists. split.
    + unfold mbind, M_bind. cbn [for_each]. unfold mret at 1. unfold M_ret at 1.
      rewrite print_stats_snapshot. reflexivity.
    + reflexivity.
  - apply Forall_cons in Hcan as [Hcan Hrest]. simpl in Hcan.
    cbn [for_each reports].
    pose proof (evaluate_line_outcomes extractor line board expected w Hline Hcan)
      as Hstep.
    pose proof (fun b => record_outcomes_can_answer board b expected
                           (strategies w) (random_draws w)) as Hkeep.
    destruct (record_outcomes board expected (strategies w) (random_draws w))
      as [[strategies' flags] draws'].
    simpl in Hkeep.
    set (w1 := {| strategies := strategies';
                  random_draws := draws';
                  stdout := stdout w
                    ++ (if existsb id flags then [snapshot strategies'] else []) |})
      in *.
    destruct (IH w1) as (w' & Hrun & Hout).
    { eapply Forall_impl; [exact Hrest|].
      intros puzzle Hpuzzle. apply Hkeep, Hpuzzle. }
    exists w'. split.
    + unfold mbind at 1. unfold M_bind at 1.
      unfold mbind at 1. unfold M_bind at 1.
      rewrite Hstep. exact Hrun.
    + rewrite Hout. unfold w1. simpl. rewrite <- (assoc_L (++)). reflexivity.
Qed.

(** C5. [evaluate_all] skips the first line of the file, whatever it holds.
    When every other line decodes to a puzzle and every strategy can answer
    on every puzzle, it returns without raising and has printed, after what
    was printed before, exactly the snapshots of [reports]: after each puzzle
    one snapshot if and only if some strategy answered it correctly, and one
    more after the last puzzle; a snapshot lists the strategies with
    [total > 0], each as [stats_line] writes it, [name: wins/total (rate%)],
    joined by [" | "] in registration order. *)
Theorem evaluate_all_reports (header : string) (lines : list string)
    (puzzles : list (Board * string)) (w : World) :
  Forall2 (decodes_to PuzzleExtractor_init) lines puzzles ->
  Forall (fun puzzle => Forall (can_answer (fst puzzle)) (strategies w)) puzzles ->
  exists w',
    evaluate_all PuzzleExtractor_init (header :: lines) w = (inr (), w') /\
    stdout w' = stdout w ++ reports (strategies w) (random_draws w) puzzles.
Proof.
  intros Hdecode Hcan. unfold evaluate_all.
  apply evaluate_lines_reports; assumption.
Qed.

End RunFacts.

(** ** Decoding a puzzle record *)

Section DecodeFacts.
Context `{E : RulesEngine}.

Lemma header_idx_HEADERS (i : nat) (column : string) :
  HEADERS !! i = Some column -> header_idx PuzzleExtractor_init !! column = Some i.
Proof.
  intros Hcolumn.
  do 10 (destruct i as [|i]; [injection Hcolumn as <-; vm_compute; reflexivity|]).
  discriminate.
Qed.

Lemma extract_puzzle_fields (line : string) :
  extract_puzzle PuzzleExtractor_init line =
    (fen ← getitem (split "," line) 1;
     board ← Board_init fen;
     moves ← getitem (split "," line) 2;
     mret (board, split " " moves)).
Proof.
  unfold extract_puzzle, dict_getitem.
  rewrite (header_idx_HEADERS 1 "FEN") by reflexivity.
  rewrite (header_idx_HEADERS 2 "Moves") by reflexivity.
  reflexivity.
Qed.

(** C4, amended.  The columns [FEN] and [Moves] are resolved by name in the
    program's own list [HEADERS], every name of it standing for its index
    there; [extract_puzzle] therefore builds the board from the second field
    of the line and takes the moves from its third field, on every line;
    [evaluate_all] gives the same run whatever the first line of the file
    holds; and for a record whose fields stand in the order of [HEADERS],
    [extract_puzzle] returns what a reader by column name returns. *)
Theorem extract_puzzle_by_HEADERS (fields : list string) :
  length fields = length HEADERS ->
  Forall (fun field => has_char "," field = false) fields ->
  (forall i column, HEADERS !! i = Some column ->
     header_idx PuzzleExtractor_init !! column = Some i) /\
  (forall line,
     extract_puzzle PuzzleExtractor_init line =
       (fen ← getitem (split "," line) 1;
        board ← Board_init fen;
        moves ← getitem (split "," line) 2;
        mret (board, split " " moves))) /\
  (forall header header' lines w,
     evaluate_all PuzzleExtractor_init (header :: lines) w =
     evaluate_all PuzzleExtractor_init (header' :: lines) w) /\
  decode_by_name HEADERS fields =
    Some (extract_puzzle PuzzleExtractor_init (join "," fields)).
Proof.
  intros Hlength Hfields.
  split; [exact header_idx_HEADERS|].
  split; [exact extract_puzzle_fields|].
  split; [reflexivity|].
  rewrite extract_puzzle_fields, split_join; [|intros ->; discriminate|exact Hfields].
  do 10 (destruct fields as [|? fields]; [discriminate|]).
  reflexivity.
Qed.

End DecodeFacts.

(** ** Runs on the table engine *)

Section Runs.
Import Table.

Local Open Scope Z_scope.

(** Text operations on lines of a puzzle file. *)
Example split_examples :
  split "," "00008,6k1/5ppp w,e1e8 g8h8," = ["00008"; "6k1/5ppp w"; "e1e8 g8h8"; EmptyString]
  /\ split " " "e1e8 g8h8" = ["e1e8"; "g8h8"]
  /\ split "," EmptyString = [EmptyString].
Proof. repeat split; reflexivity. Qed.

Example strip_example :
  strip ("  00008,a b," +:+ String "013"%char (String "010"%char EmptyString))
    = "00008,a b,".
Proof. reflexivity. Qed.

(** Win rates as [print_stats] renders them: 6.25 and 18.75 are ties and go
    to the even digit. *)
Example win_rate_examples :
  map (fun '(wins, total) =>
         Float.format_1f (Float.mul_int (Float.truediv wins total) 100))
      [(1, 3); (2, 3); (1, 16); (3, 16); (0, 5); (7, 7); (29, 200)]
    = ["33.3"; "66.7"; "6.2"; "18.8"; "0.0"; "100.0"; "14.5"].
Proof. vm_compute. reflexivity. Qed.

(** The material on [back_rank]: a rook against a bishop and three pawns. *)
Example back_rank_material :
  material back_rank WHITE = 5 /\ material back_rank BLACK = 6 /\
  turn back_rank = WHITE /\ is_checkmate back_rank = false.
Proof. repeat split; vm_compute; reflexivity. Qed.

(** The one-ply scores of the seventeen candidates of [back_rank], in
    enumeration order, under the two evaluators. *)
Example back_rank_scores :
  map (fun move => candidate_score balance_search back_rank 1 None 0 move)
      (legal_moves back_rank)
    = [1; 1; 1; 1; 1; -1; 1; 1; 1; 1; 1; 1; 1; 1; 1; 1; -2]
  /\ map (fun move => candidate_score diff_search back_rank 1 None 0 move)
         (legal_moves back_rank)
    = [0; 0; 0; 0; 0; -1; 0; 0; 0; 0; 0; 0; 0; 0; 0; 0; -3].
Proof. split; vm_compute; reflexivity. Qed.

Lemma minmax_first_minimum_witness :
  0 < depth balance_search /\
  legal_moves back_rank <> [] /\
  exists (i : nat) (move : Move),
    legal_moves back_rank !! i = Some move /\
    minmax balance_search back_rank 1 None 0 =
      (candidate_score balance_search back_rank 1 None 0 move, Some move) /\
    (forall j other, legal_moves back_rank !! j = Some other ->
       candidate_score balance_search back_rank 1 None 0 move
       <= candidate_score balance_search back_rank 1 None 0 other) /\
    (forall j other, (j < i)%nat -> legal_moves back_rank !! j = Some other ->
       candidate_score balance_search back_rank 1 None 0 move
       < candidate_score balance_search back_rank 1 None 0 other).
Proof.
  split; [reflexivity|]. split; [discriminate|].
  apply (minmax_first_minimum (E := engine) balance_search back_rank 1 None 0);
    [reflexivity|discriminate].
Defined.

(** C2, where the program fails it.  On [back_rank] the move [e1e8] mates
    and the move [e1a1] does not; with [player = 1] and the root as
    reference, the mating move's position evaluates to -1 under both
    evaluators, the capture's position to -2 and to -3, and the one-ply
    search of both evaluators returns the capture. *)
Theorem checkmate_does_not_dominate :
  legal_moves back_rank !! 5%nat = Some "e1e8" /\
  legal_moves back_rank !! 16%nat = Some "e1a1" /\
  is_checkmate (push back_rank "e1e8") = true /\
  is_checkmate (push back_rank "e1a1") = false /\
  evaluate (MaterialBalanceEvaluator "balance") (push back_rank "e1e8") back_rank 1 = -1 /\
  evaluate (MaterialBalanceEvaluator "balance") (push back_rank "e1a1") back_rank 1 = -2 /\
  evaluate (MaterialDiffEvaluator "diff") (push back_rank "e1e8") back_rank 1 = -1 /\
  evaluate (MaterialDiffEvaluator "diff") (push back_rank "e1a1") back_rank 1 = -3 /\
  MinMaxStrategy_get_move balance_search back_rank = Some "e1a1" /\
  MinMaxStrategy_get_move diff_search back_rank = Some "e1a1".
Proof. repeat split; vm_compute; reflexivity. Qed.

Lemma RandomStrategy_get_move_terminal_witness :
  legal_moves fools_mate = [] /\
  RandomStrategy_get_move fools_mate start_main = (inl IndexError, start_main).
Proof.
  split; [reflexivity|].
  apply (RandomStrategy_get_move_terminal (E := engine) fools_mate start_main).
  reflexivity.
Defined.

(** With the strategies of [main], the puzzle on a checkmate position ends
    in the [IndexError] of the random strategy, registered first. *)
Example evaluate_puzzle_fools_mate :
  fst (evaluate_puzzle fools_mate "e2e4" start_main) = inl IndexError.
Proof. vm_compute. reflexivity. Qed.

(** C4 as stated fails.  In a dataset whose header puts [Moves] before
    [FEN], a reader by column name decodes the record to the back-rank
    position and the move [e1e8]; [extract_puzzle] hands the moves text to
    [chess.Board] and raises [ValueError]. *)
Lemma reordered_record_misread :
  reordered_header ≡ₚ HEADERS /\
  length reordered_record = length reordered_header /\
  Forall (fun field => has_char "," field = false) reordered_record /\
  decode_by_name reordered_header reordered_record = Some (inr (back_rank, ["e1e8"])) /\
  extract_puzzle PuzzleExtractor_init (join "," reordered_record) = inl ValueError.
Proof.
  split; [apply perm_skip, perm_swap|].
  split; [reflexivity|].
  split; [repeat constructor|].
  split; vm_compute; reflexivity.
Qed.

Lemma extract_puzzle_by_HEADERS_witness :
  length ordered_record = length HEADERS /\
  Forall (fun field => has_char "," field = false) ordered_record /\
  decode_by_name HEADERS ordered_record =
    Some (extract_puzzle PuzzleExtractor_init (join "," ordered_record)).
Proof.
  split; [reflexivity|]. split; [repeat constructor|].
  apply (extract_puzzle_by_HEADERS (E := engine) ordered_record);
    [reflexivity|repeat constructor].
Defined.

(** The record in [HEADERS] order decodes to the back-rank position. *)
Example extract_puzzle_ordered_record :
  extract_puzzle PuzzleExtractor_init (join "," ordered_record)
    = inr (back_rank, ["e1e8"]).
Proof. vm_compute. reflexivity. Qed.

Lemma puzzle_file_decodes :
  Forall2 (decodes_to PuzzleExtractor_init) (tail puzzle_file)
    puzzles.
Proof.
  repeat constructor; eexists; (split; [vm_compute; reflexivity|reflexivity]).
Defined.

Lemma puzzle_file_can_answer (draws : nat -> nat) :
  Forall (fun puzzle => Forall (can_answer (fst puzzle)) (strategies (start draws)))
    puzzles.
Proof. repeat constructor; intros _; discriminate. Defined.

Lemma mixed_file_decodes :
  Forall2 (decodes_to PuzzleExtractor_init) (tail Scenes.mixed_file)
    Scenes.mixed_puzzles.
Proof.
  repeat constructor; eexists; (split; [vm_compute; reflexivity|reflexivity]).
Defined.

Lemma mixed_file_can_answer (draws : nat -> nat) :
  Forall (fun puzzle => Forall (can_answer (fst puzzle)) (strategies (start draws)))
    Scenes.mixed_puzzles.
Proof. repeat constructor; intros _; discriminate. Defined.

Lemma mixed_file_reports :
  reports (strategies (start (fun _ => 5%nat)))
    (random_draws (start (fun _ => 5%nat))) Scenes.mixed_puzzles
  = [ "random: 1/1 (100.0%) | minmax_balance: 0/1 (0.0%) | minmax_diff: 0/1 (0.0%)";
      "random: 1/3 (33.3%) | minmax_balance: 1/3 (33.3%) | minmax_diff: 1/3 (33.3%)";
      "random: 1/3 (33.3%) | minmax_balance: 1/3 (33.3%) | minmax_diff: 1/3 (33.3%)" ].
Proof. vm_compute. reflexivity. Defined.

Lemma evaluate_all_reports_witness :
  Forall2 (decodes_to PuzzleExtractor_init) (tail Scenes.mixed_file)
    Scenes.mixed_puzzles /\
  Forall (fun puzzle =>
            Forall (can_answer (fst puzzle)) (strategies (start (fun _ => 5%nat))))
    Scenes.mixed_puzzles /\
  exists w',
    evaluate_all PuzzleExtractor_init Scenes.mixed_file (start (fun _ => 5%nat))
      = (inr (), w') /\
    stdout w' =
      stdout (start (fun _ => 5%nat))
      ++ [ "random: 1/1 (100.0%) | minmax_balance: 0/1 (0.0%) | minmax_diff: 0/1 (0.0%)";
           "random: 1/3 (33.3%) | minmax_balance: 1/3 (33.3%) | minmax_diff: 1/3 (33.3%)";
           "random: 1/3 (33.3%) | minmax_balance: 1/3 (33.3%) | minmax_diff: 1/3 (33.3%)" ].
Proof.
  split; [exact mixed_file_decodes|].
  split; [exact (mixed_file_can_answer _)|].
  rewrite <- mixed_file_reports.
  exact (evaluate_all_reports (E := engine) (hd EmptyString Scenes.mixed_file)
           (tail Scenes.mixed_file) Scenes.mixed_puzzles (start (fun _ => 5%nat))
           mixed_file_decodes (mixed_file_can_answer _)).
Defined.

(** What that run prints: the random strategy finds the mate of the first
    puzzle, the searches find the capture of the second, and the final
    snapshot repeats the last one. *)
Example puzzle_file_output :
  stdout (snd (evaluate_all PuzzleExtractor_init puzzle_file (start (fun _ => 5%nat))))
    = [ "random: 1/1 (100.0%) | minmax_balance: 0/1 (0.0%) | minmax_diff: 0/1 (0.0%)";
        "random: 1/2 (50.0%) | minmax_balance: 1/2 (50.0%) | minmax_diff: 1/2 (50.0%)";
        "random: 1/2 (50.0%) | minmax_balance: 1/2 (50.0%) | minmax_diff: 1/2 (50.0%)" ].
Proof. vm_compute. reflexivity. Qed.

Lemma MinMax_no_move_is_a_miss_witness :
  legal_moves fools_mate = [] /\
  kind (default RandomStrategy_init (main_strategies !! 1%nat)) =
    MinMax {| depth := 3; evaluator := MaterialBalanceEvaluator "balance" |} /\
  strategies start_main !! 1%nat =
    Some (default RandomStrategy_init (main_strategies !! 1%nat)) /\
  answer_and_record fools_mate "e2e4" false
    (1%nat, default RandomStrategy_init (main_strategies !! 1%nat)) start_main =
    (inr false,
     {| strategies := alter (update_stats false) 1%nat (strategies start_main);
        random_draws := random_draws start_main;
        stdout := stdout start_main |}).
Proof.
  split; [reflexivity|]. split; [reflexivity|]. split; [reflexivity|].
  apply (MinMax_no_move_is_a_miss (E := engine) fools_mate
           {| depth := 3; evaluator := MaterialBalanceEvaluator "balance" |}
           (default RandomStrategy_init (main_strategies !! 1%nat))
           1%nat "e2e4" false start_main); reflexivity.
Defined.

(** With the strategies of [main] the miss is recorded on the search
    registered second, whatever stands before it. *)
Example miss_recorded_in_main :
  map (fun s => (wins (stats s), total (stats s)))
      (strategies (snd (answer_and_record fools_mate "e2e4" false
                          (1%nat, default RandomStrategy_init (main_strategies !! 1%nat))
                          start_main)))
    = [(0, 0); (0, 1); (0, 0)]%nat.
Proof. vm_compute. reflexivity. Qed.

Lemma extra_queen_one_extra_queen : one_extra_queen Scenes.extra_queen.
Proof. split; [vm_compute; reflexivity|]. repeat constructor. Defined.

Lemma MaterialBalance_evaluate_material_witness :
  is_checkmate Scenes.extra_queen = false /\
  one_extra_queen Scenes.extra_queen /\
  evaluate (MaterialBalanceEvaluator "balance") Scenes.extra_queen back_rank (-1) =
    -1 * (material Scenes.extra_queen (turn Scenes.extra_queen)
          - material Scenes.extra_queen (other_side (turn Scenes.extra_queen))) /\
  evaluate (MaterialBalanceEvaluator "balance") Scenes.extra_queen back_rank (-1) =
    -1 * 9.
Proof.
  split; [reflexivity|]. split; [exact extra_queen_one_extra_queen|].
  destruct (MaterialBalance_evaluate_material (E := engine) "balance"
              Scenes.extra_queen back_rank (-1) eq_refl) as [Hbalance Hqueen].
  split; [exact Hbalance|exact (Hqueen extra_queen_one_extra_queen)].
Defined.

(** On [extra_queen] Black, to move, holds 11 against 2; on [back_rank]
    White, to move, holds 5 against 6. *)
Example MaterialBalance_values :
  evaluate (MaterialBalanceEvaluator "balance") Scenes.extra_queen back_rank 1 = 9
  /\ evaluate (MaterialBalanceEvaluator "balance") back_rank back_rank 1 = -1
  /\ material Scenes.extra_queen BLACK = 11 /\ material Scenes.extra_queen WHITE = 2.
Proof. repeat split; vm_compute; reflexivity. Qed.

(** C8 as stated fails.  The checkmate position of fool's mate, evaluated
    against itself by [MaterialDiffEvaluator], gives -1 and not 0. *)
Lemma MaterialDiff_self_on_checkmate :
  evaluate (MaterialDiffEvaluator "diff") fools_mate fools_mate 1 <> 0.
Proof. vm_compute. discriminate. Qed.

Lemma evaluate_checkmate_witness :
  is_checkmate fools_mate = true /\
  evaluate (MaterialBalanceEvaluator "balance") fools_mate back_rank 1 = - 1 /\
  evaluate (MaterialDiffEvaluator "balance") fools_mate back_rank 1 = - 1.
Proof.
  split; [reflexivity|].
  apply (evaluate_checkmate (E := engine) "balance" fools_mate back_rank 1). reflexivity.
Defined.

(** The calls of the one-ply search on [back_rank]: the root, then for each
    of the seventeen moves a call of [minmax] and a call of the evaluator. *)
Example get_move_trace_back_rank :
  length (get_move_trace balance_search back_rank) = 35%nat.
Proof. vm_compute. reflexivity. Qed.

End Runs.

(** * Further properties of the program *)

(** ** Evaluators *)

Section MoreEvaluatorFacts.
Context `{E : RulesEngine}.

Local Open Scope Z_scope.

(** X1. Both evaluators are odd in [player]: turning the sign of [player]
    turns the sign of the score, on checkmate positions as on the others. *)
Theorem evaluate_opp_player
    (evaluator : BoardEvaluator) (board init_board : Board) (player : Z) :
  evaluate evaluator board init_board (- player) =
    - evaluate evaluator board init_board player.
Proof.
  destruct evaluator; simpl;
    [unfold MaterialBalanceEvaluator_evaluate | unfold MaterialDiffEvaluator_evaluate];
    destruct (is_checkmate board); lia.
Qed.

Lemma MaterialDiff_as_balance (name name' : string) (board init_board : Board)
    (player : Z) :
  is_checkmate board = false ->
  evaluate (MaterialDiffEvaluator name) board init_board player =
    evaluate (MaterialBalanceEvaluator name') board init_board player
    - player * (material init_board (turn board)
                - material init_board (other_side (turn board))).
Proof.
  intros Hmate. simpl.
  unfold MaterialDiffEvaluator_evaluate, MaterialBalanceEvaluator_evaluate.
  rewrite Hmate, !sum_pieces_material, !opponent_other_side. lia.
Qed.

(** X2. Off checkmate, [MaterialDiffEvaluator] is [MaterialBalanceEvaluator]
    on the same position less [player] times the material balance the
    reference position has for the side that is to move on [board]. *)
Theorem MaterialDiff_minus_reference
    (name name' : string) (board init_board : Board) (player : Z) :
  is_checkmate board = false ->
  evaluate (MaterialDiffEvaluator name) board init_board player =
    evaluate (MaterialBalanceEvaluator name') board init_board player
    - player * (material init_board (turn board)
                - material init_board (other_side (turn board))).
Proof. apply MaterialDiff_as_balance. Qed.

Lemma material_same_counts (board init_board : Board) (color : Color) :
  same_material_counts board init_board ->
  material board color = material init_board color.
Proof.
  intros Hsame. unfold material.
  rewrite !(Hsame _ color) by discriminate. reflexivity.
Qed.

(** X3. Off checkmate, [MaterialDiffEvaluator] returns 0 whenever the
    position holds as many pawns, knights, bishops, rooks and queens of each
    side as the reference position, wherever they stand and whoever is to
    move. *)
Theorem MaterialDiff_same_counts
    (name : string) (board init_board : Board) (player : Z) :
  is_checkmate board = false ->
  same_material_counts board init_board ->
  evaluate (MaterialDiffEvaluator name) board init_board player = 0.
Proof.
  intros Hmate Hsame. simpl. unfold MaterialDiffEvaluator_evaluate.
  rewrite Hmate, !sum_pieces_material.
  rewrite !(material_same_counts board init_board) by exact Hsame. lia.
Qed.

(** X4. [sum_pieces] takes the class table for an empty dict of weights as
    for [None]; with the class table it is never negative, and it is 0
    exactly when the side has no pawn, knight, bishop, rook or queen. *)
Theorem sum_pieces_default (board : Board) (color : Color) :
  sum_pieces board color (Some []) = sum_pieces board color None /\
  0 <= sum_pieces board color None /\
  (sum_pieces board color None = 0 <->
   forall piece_type, piece_type <> KING -> pieces board piece_type color = []).
Proof.
  split; [reflexivity|].
  rewrite sum_pieces_material. unfold material.
  split; [lia|]. split.
  - intros Hzero piece_type Hking. apply length_zero_iff_nil.
    destruct piece_type; try congruence; lia.
  - intros Hnone. rewrite !Hnone by discriminate. reflexivity.
Qed.

End MoreEvaluatorFacts.

(** ** The search *)

Section MoreSearchFacts.
Context `{E : RulesEngine}.

Local Open Scope Z_scope.

(** Above the cutoff and with a legal move, the result of [minmax] is what
    [evaluate_move] gave for one of the legal moves. *)
Lemma minmax_is_candidate (self : MinMaxStrategy) (board : Board) (player : Z)
    (init_board : option Board) (depth_now : Z) :
  depth_now < depth self ->
  legal_moves board <> [] ->
  exists (i : nat) (move : Move),
    legal_moves board !! i = Some move /\
    minmax self board player init_board depth_now =
      evaluate_move self move player board (or_board init_board board) (depth_now + 1).
Proof.
  intros Hdepth Hmoves. rewrite minmax_eq. cbv zeta.
  destruct (Z.leb_spec (depth self) depth_now) as [Hle|_]; [lia|].
  destruct (legal_moves board) as [|m0 ms]; [congruence|].
  set (f := fun move => evaluate_move self move player board
                          (or_board init_board board) (depth_now + 1)).
  destruct (hd_sort_by_key fst (0, None) (map f (m0 :: ms))) as (i & Hi & _).
  { simpl. congruence. }
  rewrite list_lookup_fmap in Hi.
  destruct ((m0 :: ms) !! i) as [move|] eqn:Hmove; [|discriminate].
  simpl in Hi. injection Hi as Hbest.
  exists i, move. split; [exact Hmove|]. symmetry. exact Hbest.
Qed.

Lemma minmax_leaf (self : MinMaxStrategy) (board : Board) (player : Z)
    (init_board : option Board) (depth_now : Z) :
  depth self <= depth_now \/ legal_moves board = [] ->
  minmax self board player init_board depth_now =
    (evaluate (evaluator self) board (or_board init_board board) player, None).
Proof.
  intros Hleaf. rewrite minmax_eq. cbv zeta.
  destruct (Z.leb_spec (depth self) depth_now) as [_|Hlt]; [reflexivity|].
  destruct Hleaf as [Hle|Hmoves]; [lia|]. rewrite Hmoves. reflexivity.
Qed.

(** X5. [minmax] returns no move exactly when the depth is used up or the
    position has no legal move, and its score is then the evaluation of the
    position itself; so a strategy of depth 0 or less answers [None] on every
    position. *)
Theorem minmax_no_move (self : MinMaxStrategy) (board : Board) (player : Z)
    (init_board : option Board) (depth_now : Z) :
  (snd (minmax self board player init_board depth_now) = None <->
   depth self <= depth_now \/ legal_moves board = []) /\
  (depth self <= depth_now \/ legal_moves board = [] ->
   minmax self board player init_board depth_now =
     (evaluate (evaluator self) board (or_board init_board board) player, None)) /\
  (depth self <= 0 -> MinMaxStrategy_get_move self board = None).
Proof.
  split; [split|split].
  - intros Hnone.
    destruct (Z.leb_spec (depth self) depth_now) as [Hle|Hlt]; [left; exact Hle|].
    destruct (legal_moves board) as [|m0 ms] eqn:Hlegal; [right; reflexivity|].
    exfalso.
    destruct (minmax_is_candidate self board player init_board depth_now)
      as (i & move & _ & Hbest); [exact Hlt|congruence|].
    rewrite Hbest, evaluate_move_snd in Hnone. discriminate.
  - intros Hleaf. rewrite minmax_leaf by exact Hleaf. reflexivity.
  - apply minmax_leaf.
  - intros Hdepth. unfold MinMaxStrategy_get_move.
    rewrite minmax_leaf by (left; exact Hdepth). reflexivity.
Qed.

(** X6. On the last ply before the cutoff the score of a candidate move is
    the evaluation of the position the move leads to: a search of depth 1
    looks at the immediate successors and no further. *)
Theorem candidate_score_last_ply (self : MinMaxStrategy) (board : Board)
    (player : Z) (init_board : option Board) (depth_now : Z) (move : Move) :
  depth self = depth_now + 1 ->
  candidate_score self board player init_board depth_now move =
    evaluate (evaluator self) (apply_move board move)
      (or_board init_board board) player.
Proof.
  intros Hdepth. unfold candidate_score, evaluate_move.
  rewrite minmax_leaf by (left; lia). reflexivity.
Qed.

(** X7. A move into a checkmate position without legal moves scores
    [- player] as a candidate at every depth, however many plies are left. *)
Theorem candidate_score_mate (self : MinMaxStrategy) (board : Board)
    (player : Z) (init_board : option Board) (depth_now : Z) (move : Move) :
  is_checkmate (apply_move board move) = true ->
  legal_moves (apply_move board move) = [] ->
  candidate_score self board player init_board depth_now move = - player.
Proof.
  intros Hmate Hmoves. unfold candidate_score, evaluate_move.
  rewrite minmax_leaf by (right; exact Hmoves). cbn [fst].
  apply evaluate_on_checkmate, Hmate.
Qed.

Lemma minmax_plies_least (self : MinMaxStrategy) (player : Z) (init_board : Board)
    (plies : nat) :
  forall board : Board,
    let score := fst (minmax_plies self plies board player init_board) in
    Forall (fun leaf => score <= evaluate (evaluator self) leaf init_board player)
           (leaves plies board) /\
    Exists (fun leaf => score = evaluate (evaluator self) leaf init_board player)
           (leaves plies board).
Proof.
  induction plies as [|plies IH]; intros board; cbv zeta.
  - simpl. split; constructor; [lia|constructor|reflexivity].
  - cbn [minmax_plies leaves].
    destruct (legal_moves board) as [|m0 ms] eqn:Hlegal.
    { simpl. split; constructor; [lia|constructor|reflexivity]. }
    set (moves := m0 :: ms) in *.
    set (g := fun move =>
                let '(score, _) :=
                  minmax_plies self plies (apply_move board move) player init_board in
                (score, Some move)).
    assert (Hg : forall move,
               fst (g move) =
               fst (minmax_plies self plies (apply_move board move) player init_board)).
    { intros move. unfold g.
      destruct (minmax_plies self plies (apply_move board move) player init_board).
      reflexivity. }
    destruct (hd_sort_by_key fst (0, None) (map g moves)) as (i & Hi & Hmin & _).
    { unfold moves. simpl. congruence. }
    set (best := hd (0, None) (sort_by_key fst (map g moves))) in *.
    rewrite list_lookup_fmap in Hi.
    destruct (moves !! i) as [chosen|] eqn:Hchosen; [|discriminate].
    simpl in Hi. injection Hi as Hbest.
    split.
    + apply Forall_concat, Forall_map, Forall_forall. intros move Hmove.
      apply list_elem_of_lookup in Hmove as [j Hj].
      assert (Hle : fst best <= fst (g move)).
      { apply (Hmin j). rewrite list_lookup_fmap, Hj. reflexivity. }
      rewrite Hg in Hle.
      destruct (IH (apply_move board move)) as [Hall _].
      eapply Forall_impl; [exact Hall|].
      intros leaf Hleaf. simpl in Hleaf. lia.
    + apply Exists_concat, Exists_map, Exists_exists.
      exists chosen. split.
      * apply list_elem_of_lookup. exists i. exact Hchosen.
      * destruct (IH (apply_move board chosen)) as [_ Hsome].
        rewrite <- Hbest, Hg. exact Hsome.
Qed.

(** X8. The score [minmax] returns is the least evaluation over every
    position the search hands to the evaluator, the positions at the cutoff
    and the positions without legal moves above it: a minimum over the whole
    tree, taken for both sides alike, and attained at one of those
    positions. *)
Theorem minmax_least_leaf (self : MinMaxStrategy) (board : Board) (player : Z)
    (init_board : option Board) (depth_now : Z) :
  let plies := Z.to_nat (depth self - depth_now) in
  let score := fst (minmax self board player init_board depth_now) in
  Forall (fun leaf =>
            score <= evaluate (evaluator self) leaf (or_board init_board board) player)
         (leaves plies board) /\
  Exists (fun leaf =>
            score = evaluate (evaluator self) leaf (or_board init_board board) player)
         (leaves plies board).
Proof.
  cbv zeta. unfold minmax.
  apply (minmax_plies_least self player (or_board init_board board)).
Qed.

Lemma evaluator_calls_app (events events' : list event) :
  evaluator_calls (events ++ events') =
    evaluator_calls events ++ evaluator_calls events'.
Proof.
  induction events as [|[b p i d|b i p] events IH]; simpl; congruence.
Qed.

Lemma evaluator_calls_concat (runs : list (list event)) :
  evaluator_calls (concat runs) = concat (map evaluator_calls runs).
Proof.
  induction runs as [|events runs IH]; simpl; [reflexivity|].
  rewrite evaluator_calls_app, IH. reflexivity.
Qed.

Lemma evaluator_calls_traced (self : MinMaxStrategy) (player : Z) (plies : nat) :
  forall (board : Board) (init_board : option Board) (depth_now : Z),
    evaluator_calls
      (snd (minmax_traced self plies board player init_board depth_now)) =
    map (fun leaf => (leaf, or_board init_board board, player)) (leaves plies board).
Proof.
  induction plies as [|plies IH]; intros board init_board depth_now.
  - reflexivity.
  - cbn [minmax_traced leaves].
    destruct (legal_moves board) as [|m0 ms]; [reflexivity|].
    cbn [snd evaluator_calls].
    rewrite evaluator_calls_concat, concat_map, !map_map.
    f_equal. apply map_ext. intros move.
    specialize (IH (apply_move board move)
                   (Some (or_board init_board board)) (depth_now + 1)).
    cbn [or_board] in IH. rewrite <- IH.
    destruct (minmax_traced self plies (apply_move board move) player
                (Some (or_board init_board board)) (depth_now + 1))
      as [[score best] events].
    reflexivity.
Qed.

(** X9. The search of [get_move] calls the evaluator once on each position
    at the cutoff or without legal moves, in the order the moves are
    enumerated, and every call receives the root position as [init_board]
    and 1 as [player]. *)
Theorem get_move_evaluator_calls (self : MinMaxStrategy) (board : Board) :
  evaluator_calls (get_move_trace self board) =
    map (fun leaf => (leaf, board, 1)) (leaves (Z.to_nat (depth self - 0)) board).
Proof.
  unfold get_move_trace.
  rewrite (evaluator_calls_traced self 1 (Z.to_nat (depth self - 0)) board None 0).
  reflexivity.
Qed.

(** X10. A move text returned by [MinMaxStrategy.get_move] is the UCI text
    of a legal move of the position. *)
Theorem MinMaxStrategy_get_move_legal (self : MinMaxStrategy) (board : Board)
    (text : string) :
  MinMaxStrategy_get_move self board = Some text ->
  exists (i : nat) (move : Move),
    legal_moves board !! i = Some move /\ uci move = text.
Proof.
  unfold MinMaxStrategy_get_move. intros Htext.
  destruct (Z.leb_spec (depth self) 0) as [Hle|Hlt].
  { rewrite minmax_leaf in Htext by (left; exact Hle). discriminate. }
  destruct (legal_moves board) as [|m0 ms] eqn:Hlegal.
  { rewrite minmax_leaf in Htext by (right; exact Hlegal). discriminate. }
  destruct (minmax_is_candidate self board 1 None 0) as (i & move & Hmove & Hbest);
    [exact Hlt|congruence|].
  rewrite Hbest in Htext.
  pose proof (evaluate_move_snd self move 1 board (or_board None board) (0 + 1))
    as Hsnd.
  destruct (evaluate_move self move 1 board (or_board None board) (0 + 1))
    as [score best].
  simpl in Hsnd. subst best.
  destruct (Move_bool move); [|discriminate].
  injection Htext as <-.
  exists i, move. rewrite <- Hlegal. split; [exact Hmove|reflexivity].
Qed.

(** Subtracting a constant from every key does not change the order a
    stable sort gives. *)
Lemma insert_by_key_shift (c : Z) (x : Z * option Move) (l : list (Z * option Move)) :
  insert_by_key fst (shift_score c x) (map (shift_score c) l) =
    map (shift_score c) (insert_by_key fst x l).
Proof.
  induction l as [|y l IH]; simpl; [reflexivity|].
  replace (x.1 - c <=? y.1 - c) with (x.1 <=? y.1)
    by (destruct (Z.leb_spec (x.1) (y.1)), (Z.leb_spec (x.1 - c) (y.1 - c));
        reflexivity || lia).
  destruct (x.1 <=? y.1); simpl; [reflexivity|]. rewrite IH. reflexivity.
Qed.

Lemma sort_by_key_shift (c : Z) (l : list (Z * option Move)) :
  sort_by_key fst (map (shift_score c) l) = map (shift_score c) (sort_by_key fst l).
Proof.
  induction l as [|x l IH]; simpl; [reflexivity|].
  rewrite IH. apply insert_by_key_shift.
Qed.

Lemma minmax_plies_evaluators (name name' : string) (d d' : Z) (player : Z)
    (init_board : Board) (color : Color) (plies : nat) :
  forall board : Board,
    Forall (fun leaf => is_checkmate leaf = false /\ turn leaf = color)
           (leaves plies board) ->
    minmax_plies {| depth := d; evaluator := MaterialDiffEvaluator name |}
      plies board player init_board =
    shift_score
      (player * (material init_board color - material init_board (other_side color)))
      (minmax_plies {| depth := d'; evaluator := MaterialBalanceEvaluator name' |}
         plies board player init_board).
Proof.
  set (c := player * (material init_board color - material init_board (other_side color))).
  assert (Hleaf : forall board,
             is_checkmate board = false -> turn board = color ->
             (evaluate (MaterialDiffEvaluator name) board init_board player, None)
             = shift_score c
                 (evaluate (MaterialBalanceEvaluator name') board init_board player,
                  @None Move)).
  { intros board Hmate Hturn. unfold shift_score. cbn [fst snd].
    rewrite (MaterialDiff_as_balance name name') by exact Hmate.
    rewrite Hturn. reflexivity. }
  induction plies as [|plies IH]; intros board Hleaves.
  - simpl in Hleaves. apply Forall_cons in Hleaves as [[Hmate Hturn] _].
    apply Hleaf; assumption.
  - cbn [minmax_plies leaves] in *. cbn [evaluator] in *.
    destruct (legal_moves board) as [|m0 ms] eqn:Hlegal.
    { apply Forall_cons in Hleaves as [[Hmate Hturn] _]. apply Hleaf; assumption. }
    set (moves := m0 :: ms) in *.
    set (g_diff := fun move =>
           let '(score, _) :=
             minmax_plies {| depth := d; evaluator := MaterialDiffEvaluator name |}
               plies (apply_move board move) player init_board in
           (score, Some move)).
    set (g_bal := fun move =>
           let '(score, _) :=
             minmax_plies {| depth := d'; evaluator := MaterialBalanceEvaluator name' |}
               plies (apply_move board move) player init_board in
           (score, Some move)).
    assert (Hmap : map g_diff moves = map (shift_score c) (map g_bal moves)).
    { rewrite map_map. apply map_ext_in. intros move Hmove.
      apply Forall_concat in Hleaves.
      rewrite Forall_map in Hleaves.
      rewrite Forall_forall in Hleaves.
      specialize (Hleaves move (proj2 (list_elem_of_In _ _) Hmove)).
      specialize (IH (apply_move board move) Hleaves).
      unfold g_diff, g_bal. rewrite IH.
      destruct (minmax_plies {| depth := d'; evaluator := MaterialBalanceEvaluator name' |}
                  plies (apply_move board move) player init_board) as [score best].
      reflexivity. }
    rewrite Hmap, sort_by_key_shift.
    assert (Hsorted : sort_by_key fst (map g_bal moves) <> []).
    { intros Hnil. apply (f_equal length) in Hnil.
      rewrite length_sort_by_key, length_map in Hnil. discriminate. }
    destruct (sort_by_key fst (map g_bal moves)) as [|best rest]; [congruence|].
    reflexivity.
Qed.

(** X11. When no position the search hands to the evaluator is checkmate and
    the same side is to move on all of them, a search with
    [MaterialDiffEvaluator] and a search of the same depth with
    [MaterialBalanceEvaluator] return the same move, with scores that differ
    by [player] times the material balance of the reference position for
    that side; [get_move] then gives the same answer for both. *)
Theorem minmax_evaluators_agree (name name' : string) (d : Z) (board : Board)
    (player : Z) (init_board : option Board) (depth_now : Z) (color : Color) :
  let diff := {| depth := d; evaluator := MaterialDiffEvaluator name |} in
  let balance := {| depth := d; evaluator := MaterialBalanceEvaluator name' |} in
  Forall (fun leaf => is_checkmate leaf = false /\ turn leaf = color)
         (leaves (Z.to_nat (d - depth_now)) board) ->
  snd (minmax diff board player init_board depth_now) =
    snd (minmax balance board player init_board depth_now) /\
  fst (minmax diff board player init_board depth_now) =
    fst (minmax balance board player init_board depth_now)
    - player * (material (or_board init_board board) color
                - material (or_board init_board board) (other_side color)) /\
  (depth_now = 0 ->
   MinMaxStrategy_get_move diff board = MinMaxStrategy_get_move balance board).
Proof.
  cbv zeta. intros Hleaves.
  pose proof (minmax_plies_evaluators name name' d d player
                (or_board init_board board) color
                (Z.to_nat (d - depth_now)) board Hleaves) as Hshift.
  unfold minmax. cbn [depth]. rewrite Hshift.
  split; [reflexivity|]. split; [reflexivity|].
  intros ->. unfold MinMaxStrategy_get_move, minmax. cbn [depth].
  rewrite (minmax_plies_evaluators name name' d d 1 (or_board None board) color
             (Z.to_nat (d - 0)) board Hleaves).
  destruct (minmax_plies {| depth := d; evaluator := MaterialBalanceEvaluator name' |}
              (Z.to_nat (d - 0)) board 1 (or_board None board)) as [score best].
  reflexivity.
Qed.

End MoreSearchFacts.

(** ** Strategies in the harness *)

Section MoreHarnessFacts.
Context `{E : RulesEngine}.

Lemma counted_update_stats (won : bool) (strategy : ChessStrategy) :
  counted 1 strategy (update_stats won strategy).
Proof.
  unfold counted, update_stats. simpl.
  destruct won; repeat split; lia.
Qed.

Lemma record_outcomes_counted (board : Board) (expected : string)
    (ss : list ChessStrategy) :
  forall draws : nat -> nat,
    Forall2 (counted 1) ss (fst (fst (record_outcomes board expected ss draws))).
Proof.
  induction ss as [|strategy ss IH]; intros draws; [constructor|].
  simpl. destruct (select_move strategy board draws) as [move draws1].
  specialize (IH draws1).
  destruct (record_outcomes board expected ss draws1) as [[ss' flags] draws'].
  simpl in *. constructor; [apply counted_update_stats|exact IH].
Qed.

(** Some flag is set exactly when some strategy has one more success. *)
Lemma record_outcomes_hit (board : Board) (expected : string)
    (ss : list ChessStrategy) :
  forall draws : nat -> nat,
    let '(ss', flags, _) := record_outcomes board expected ss draws in
    existsb id flags = true <->
    exists (i : nat) (s s' : ChessStrategy),
      ss !! i = Some s /\ ss' !! i = Some s' /\
      wins (stats s') = wins (stats s) + 1.
Proof.
  induction ss as [|strategy ss IH]; intros draws.
  - simpl. split; [discriminate|]. intros (i & s & s' & Hs & _). discriminate.
  - simpl. destruct (select_move strategy board draws) as [move draws1].
    specialize (IH draws1).
    destruct (record_outcomes board expected ss draws1) as [[ss' flags] draws'].
    cbn [existsb id]. rewrite orb_true_iff, IH. split.
    + intros [Hhit|(i & s & s' & Hs & Hs' & Hwins)].
      * exists 0, strategy, (update_stats (eq_move move expected) strategy).
        rewrite Hhit. repeat split.
      * exists (S i), s, s'. repeat split; assumption.
    + intros ([|i] & s & s' & Hs & Hs' & Hwins); simpl in Hs, Hs'.
      * injection Hs as <-. injection Hs' as <-.
        destruct (eq_move move expected); [left; reflexivity|].
        simpl in Hwins. lia.
      * right. exists i, s, s'. repeat split; assumption.
Qed.

(** X13. When every registered strategy can answer, [evaluate_puzzle]
    returns without raising and prints nothing; every strategy keeps its
    name and class and has one more attempt and at most one more success;
    the result is [True] exactly when some strategy has one more success. *)
Theorem evaluate_puzzle_accounting (board : Board) (expected : string) (w : World) :
  Forall (can_answer board) (strategies w) ->
  exists (hit : bool) (w' : World),
    evaluate_puzzle board expected w = (inr hit, w') /\
    stdout w' = stdout w /\
    Forall2 (counted 1) (strategies w) (strategies w') /\
    (hit = true <->
     exists (i : nat) (s s' : ChessStrategy),
       strategies w !! i = Some s /\ strategies w' !! i = Some s' /\
       wins (stats s') = wins (stats s) + 1).
Proof.
  intros Hcan. rewrite evaluate_puzzle_outcomes by exact Hcan.
  pose proof (record_outcomes_counted board expected (strategies w) (random_draws w))
    as Hcounted.
  pose proof (record_outcomes_hit board expected (strategies w) (random_draws w))
    as Hhit.
  destruct (record_outcomes board expected (strategies w) (random_draws w))
    as [[ss' flags] draws'].
  eexists _, _. split; [reflexivity|]. simpl.
  split; [reflexivity|]. split; [exact Hcounted|exact Hhit].
Qed.

Lemma for_each_app {X S : Type} (body : S -> X -> M S) (xs ys : list X) (s : S)
    (w : World) :
  for_each body (xs ++ ys) s w =
    match for_each body xs s w with
    | (inr s', w') => for_each body ys s' w'
    | (inl e, w') => (inl e, w')
    end.
Proof.
  revert s w. induction xs as [|x xs IH]; intros s w; [reflexivity|].
  simpl. unfold mbind, M_bind.
  destruct (body s x w) as [[e|s1] w1]; [reflexivity|]. apply IH.
Qed.

(** The loop of [evaluate_puzzle] over a stretch of the registered
    strategies leaves the strategies before and after the stretch as they
    are. *)
Lemma evaluate_puzzle_stretch (board : Board) (expected : string) (out : list string) :
  forall (todo done later : list ChessStrategy) (draws : nat -> nat) (acc : bool),
    Forall (can_answer board) todo ->
    for_each (answer_and_record board expected)
      (imap (fun i strategy => (length done + i, strategy)) todo) acc
      {| strategies := done ++ todo ++ later; random_draws := draws; stdout := out |} =
    let '(todo', flags, draws') := record_outcomes board expected todo draws in
    (inr (acc || existsb id flags),
     {| strategies := done ++ todo' ++ later; random_draws := draws'; stdout := out |}).
Proof.
  induction todo as [|strategy todo IH]; intros done later draws acc Hcan.
  - simpl. rewrite orb_false_r. reflexivity.
  - apply Forall_cons in Hcan as [Hcan Hrest].
    rewrite imap_cons. cbn [for_each record_outcomes].
    unfold mbind at 1. unfold M_bind at 1.
    unfold answer_and_record at 1.
    unfold mbind at 1. unfold M_bind at 1.
    rewrite get_move_select by exact Hcan.
    destruct (select_move strategy board draws) as [actual draws1]. cbn [fst snd].
    unfold mbind at 1. unfold M_bind at 1.
    unfold update_stats_at at 1. cbn [strategies random_draws stdout].
    unfold mret at 1. unfold M_ret at 1.
    rewrite alter_app_r. cbn [app alter list_alter].
    specialize (IH (done ++ [update_stats (eq_move actual expected) strategy])
                   later draws1
                   (if eq_move actual expected then true else acc) Hrest).
    rewrite <- (assoc_L (++)) in IH. cbn [app] in IH.
    rewrite (imap_ext _ (fun i s =>
               (length (done ++ [update_stats (eq_move actual expected) strategy]) + i, s))).
    2:{ intros i s _. simpl. rewrite length_app. simpl. f_equal. lia. }
    rewrite IH.
    destruct (record_outcomes board expected todo draws1) as [[todo' flags] draws'].
    rewrite <- (assoc_L (++)). cbn [app existsb id].
    f_equal. f_equal.
    destruct (eq_move actual expected), acc; reflexivity.
Qed.

Lemma evaluate_puzzle_prefix (board : Board) (expected : string)
    (todo later : list ChessStrategy) (draws : nat -> nat) (out : list string) :
  Forall (can_answer board) todo ->
  for_each (answer_and_record board expected) (imap pair todo) false
    {| strategies := todo ++ later; random_draws := draws; stdout := out |} =
  let '(todo', flags, draws') := record_outcomes board expected todo draws in
  (inr (existsb id flags),
   {| strategies := todo' ++ later; random_draws := draws'; stdout := out |}).
Proof.
  intros Hcan.
  exact (evaluate_puzzle_stretch board expected out todo [] later draws false Hcan).
Qed.

(** X14. On a position without legal moves, with [MinMaxStrategy] objects
    registered before a [RandomStrategy], [evaluate_puzzle] raises the
    [IndexError] of the random strategy; the searches before it have by then
    recorded a miss, the random strategy and the strategies after it are
    untouched, and nothing is printed. *)
Theorem evaluate_puzzle_raises_midway (board : Board) (expected : string)
    (before after : list ChessStrategy) (strategy : ChessStrategy)
    (draws : nat -> nat) (out : list string) :
  legal_moves board = [] ->
  Forall is_MinMax before ->
  kind strategy = Random ->
  evaluate_puzzle board expected
    {| strategies := before ++ strategy :: after;
       random_draws := draws; stdout := out |} =
  (inl IndexError,
   {| strategies := map (update_stats false) before ++ strategy :: after;
      random_draws := draws; stdout := out |}).
Proof.
  intros Hmoves Hbefore Hkind. unfold evaluate_puzzle. cbn [strategies].
  rewrite imap_app, for_each_app.
  rewrite evaluate_puzzle_prefix.
  2:{ eapply Forall_impl; [exact Hbefore|].
      intros s [search Hs] Hrandom. congruence. }
  rewrite record_outcomes_terminal by assumption.
  rewrite imap_cons. cbn [for_each].
  unfold mbind at 1. unfold M_bind at 1.
  unfold answer_and_record at 1.
  unfold mbind at 1. unfold M_bind at 1.
  unfold get_move. rewrite Hkind.
  unfold RandomStrategy_get_move, mbind, M_bind, choice. rewrite Hmoves.
  reflexivity.
Qed.

Lemma record_outcomes_app (board : Board) (expected : string)
    (ss ss2 : list ChessStrategy) :
  forall draws : nat -> nat,
    record_outcomes board expected (ss ++ ss2) draws =
      let '(ss', flags, draws1) := record_outcomes board expected ss draws in
      let '(ss2', flags2, draws2) := record_outcomes board expected ss2 draws1 in
      (ss' ++ ss2', flags ++ flags2, draws2).
Proof.
  induction ss as [|strategy ss IH]; intros draws.
  - simpl. destruct (record_outcomes board expected ss2 draws) as [[ss2' flags2] draws2].
    reflexivity.
  - simpl. destruct (select_move strategy board draws) as [move draws0].
    rewrite IH.
    destruct (record_outcomes board expected ss draws0) as [[ss' flags] draws1].
    destruct (record_outcomes board expected ss2 draws1) as [[ss2' flags2] draws2].
    reflexivity.
Qed.

(** X15. Registering one more strategy changes no answer and no statistics
    of the strategies registered before it: a puzzle evaluated after
    [add_strategy] leaves them as the same puzzle evaluated without it, with
    the new strategy's own record appended, and succeeds when it succeeded
    before or the new strategy is correct. *)
Theorem add_strategy_independent (strategy : ChessStrategy) (board : Board)
    (expected : string) (w : World) :
  Forall (can_answer board) (strategies w) ->
  can_answer board strategy ->
  exists (hit : bool) (w1 : World),
    evaluate_puzzle board expected w = (inr hit, w1) /\
    let '(move, draws) := select_move strategy board (random_draws w1) in
    (add_strategy strategy;; evaluate_puzzle board expected) w =
      (inr (hit || eq_move move expected),
       {| strategies :=
            strategies w1 ++ [update_stats (eq_move move expected) strategy];
          random_draws := draws;
          stdout := stdout w1 |}).
Proof.
  intros Hcan Hnew.
  unfold mbind, M_bind, add_strategy.
  rewrite !evaluate_puzzle_outcomes; cbn [strategies random_draws stdout].
  2:{ apply Forall_app. split; [exact Hcan|]. constructor; [exact Hnew|constructor]. }
  2:{ exact Hcan. }
  rewrite record_outcomes_app.
  destruct (record_outcomes board expected (strategies w) (random_draws w))
    as [[ss' flags] draws1].
  eexists _, _. split; [reflexivity|]. cbn [random_draws strategies stdout].
  cbn [record_outcomes].
  destruct (select_move strategy board draws1) as [move draws2].
  rewrite existsb_app. cbn [existsb id]. rewrite orb_false_r. reflexivity.
Qed.

End MoreHarnessFacts.

(** ** A run over a puzzle file, its statistics and its failures *)

Section MoreRunFacts.
Context `{E : RulesEngine}.

(** The loop of [evaluate_all] over lines that decode: the strategies and
    the draws are those after the puzzles, and the snapshots of the puzzles
    with a correct answer have been printed. *)
Lemma evaluate_lines_state (extractor : PuzzleExtractor) :
  forall (lines : list string) (puzzles : list (Board * string)) (w : World),
    Forall2 (decodes_to extractor) lines puzzles ->
    Forall (fun puzzle => Forall (can_answer (fst puzzle)) (strategies w)) puzzles ->
    for_each (fun _ line => evaluate_line extractor line) lines () w =
      (inr (),
       {| strategies := fst (outcomes_after (strategies w) (random_draws w) puzzles);
          random_draws := snd (outcomes_after (strategies w) (random_draws w) puzzles);
          stdout := stdout w
                    ++ progress_reports (strategies w) (random_draws w) puzzles |}).
Proof.
  intros lines puzzles w Hdecode. revert w.
  induction Hdecode as [|line [board expected] lines puzzles Hline _ IH];
    intros w Hcan.
  - destruct w as [ss draws out]. simpl. rewrite app_nil_r. reflexivity.
  - apply Forall_cons in Hcan as [Hcan Hrest]. simpl in Hcan.
    cbn [for_each outcomes_after progress_reports].
    unfold mbind at 1. unfold M_bind at 1.
    rewrite (evaluate_line_outcomes extractor line board expected w Hline Hcan).
    pose proof (fun b => record_outcomes_can_answer board b expected
                           (strategies w) (random_draws w)) as Hkeep.
    destruct (record_outcomes board expected (strategies w) (random_draws w))
      as [[strategies' flags] draws'].
    simpl in Hkeep.
    rewrite IH.
    + cbn [strategies random_draws stdout].
      rewrite <- (assoc_L (++)). reflexivity.
    + cbn [strategies]. eapply Forall_impl; [exact Hrest|].
      intros puzzle Hpuzzle. apply Hkeep, Hpuzzle.
Qed.

Lemma counted_refl (ss : list ChessStrategy) : Forall2 (counted 0) ss ss.
Proof.
  induction ss as [|s ss IH]; constructor; [|exact IH].
  unfold counted. repeat split; lia.
Qed.

Lemma counted_step (n : nat) (ss ss1 ss2 : list ChessStrategy) :
  Forall2 (counted 1) ss ss1 ->
  Forall2 (counted n) ss1 ss2 ->
  Forall2 (counted (S n)) ss ss2.
Proof.
  intros H1. revert ss2.
  induction H1 as [|s s1 ss ss1 Hs _ IH]; intros ss2 H2.
  - inversion H2. constructor.
  - inversion H2 as [|? s2 ? ss2' Hs2 Hrest]; subst.
    constructor; [|apply IH, Hrest].
    destruct Hs as (Hn & Hk & Ht & Hw1 & Hw2).
    destruct Hs2 as (Hn2 & Hk2 & Ht2 & Hw3 & Hw4).
    unfold counted. repeat split; try congruence; lia.
Qed.

Lemma outcomes_after_counted (puzzles : list (Board * string)) :
  forall (ss : list ChessStrategy) (draws : nat -> nat),
    Forall2 (counted (length puzzles)) ss (fst (outcomes_after ss draws puzzles)).
Proof.
  induction puzzles as [|[board expected] puzzles IH]; intros ss draws.
  - apply counted_refl.
  - cbn [outcomes_after length].
    pose proof (record_outcomes_counted board expected ss draws) as Hone.
    destruct (record_outcomes board expected ss draws) as [[ss1 flags] draws1].
    simpl in Hone. eapply counted_step; [exact Hone|apply IH].
Qed.

Lemma counted_bounded (n : nat) (ss ss' : list ChessStrategy) :
  Forall2 (counted n) ss ss' ->
  Forall (fun s => wins (stats s) <= total (stats s)) ss ->
  Forall (fun s => wins (stats s) <= total (stats s)) ss'.
Proof.
  induction 1 as [|s s' ss ss' Hs _ IH]; intros Hbounded; [constructor|].
  apply Forall_cons in Hbounded as [Hb Hbs].
  constructor; [|apply IH, Hbs].
  destruct Hs as (_ & _ & Ht & _ & Hw). lia.
Qed.

Lemma length_progress_reports (puzzles : list (Board * string)) :
  forall (ss : list ChessStrategy) (draws : nat -> nat),
    length (progress_reports ss draws puzzles) <= length puzzles.
Proof.
  induction puzzles as [|[board expected] puzzles IH]; intros ss draws; [reflexivity|].
  cbn [progress_reports length].
  destruct (record_outcomes board expected ss draws) as [[ss1 flags] draws1].
  rewrite length_app. specialize (IH ss1 draws1).
  destruct (existsb id flags); simpl; lia.
Qed.

(** X16. After a run of [evaluate_all] over a file whose records all decode
    and whose puzzles every strategy can answer, every strategy has as many
    more attempts as there are puzzles and at most as many more successes,
    under the same name; strategies that had no more successes than attempts
    still have none; and the run has printed at least one line and at most
    one line per puzzle and one more. *)
Theorem evaluate_all_accounting (header : string) (lines : list string)
    (puzzles : list (Board * string)) (w : World) :
  Forall2 (decodes_to PuzzleExtractor_init) lines puzzles ->
  Forall (fun puzzle => Forall (can_answer (fst puzzle)) (strategies w)) puzzles ->
  exists w',
    evaluate_all PuzzleExtractor_init (header :: lines) w = (inr (), w') /\
    Forall2 (counted (length puzzles)) (strategies w) (strategies w') /\
    (Forall (fun s => wins (stats s) <= total (stats s)) (strategies w) ->
     Forall (fun s => wins (stats s) <= total (stats s)) (strategies w')) /\
    length (stdout w) + 1 <= length (stdout w') /\
    length (stdout w') <= length (stdout w) + length puzzles + 1.
Proof.
  intros Hdecode Hcan. unfold evaluate_all.
  unfold mbind, M_bind.
  rewrite (evaluate_lines_state PuzzleExtractor_init lines puzzles w Hdecode Hcan).
  rewrite print_stats_snapshot. cbn [strategies random_draws stdout].
  eexists. split; [reflexivity|]. cbn [strategies stdout].
  pose proof (outcomes_after_counted puzzles (strategies w) (random_draws w))
    as Hcounted.
  pose proof (length_progress_reports puzzles (strategies w) (random_draws w))
    as Hlines.
  split; [exact Hcounted|]. split.
  - exact (counted_bounded _ _ _ Hcounted).
  - rewrite !length_app. simpl. lia.
Qed.

(** X17. A record that [extract_puzzle] rejects ends the run with that
    exception: the records after it are not read, the final snapshot is not
    printed, and the statistics and the output stay as the records before it
    left them. *)
Theorem evaluate_all_aborts (header : string) (good : list string) (bad : string)
    (rest : list string) (puzzles : list (Board * string)) (e : exception)
    (w : World) :
  Forall2 (decodes_to PuzzleExtractor_init) good puzzles ->
  Forall (fun puzzle => Forall (can_answer (fst puzzle)) (strategies w)) puzzles ->
  extract_puzzle PuzzleExtractor_init (strip bad) = inl e ->
  evaluate_all PuzzleExtractor_init (header :: good ++ bad :: rest) w =
    (inl e,
     {| strategies := fst (outcomes_after (strategies w) (random_draws w) puzzles);
        random_draws := snd (outcomes_after (strategies w) (random_draws w) puzzles);
        stdout := stdout w
                  ++ progress_reports (strategies w) (random_draws w) puzzles |}).
Proof.
  intros Hdecode Hcan Hbad. unfold evaluate_all.
  unfold mbind at 1. unfold M_bind at 1.
  rewrite for_each_app.
  rewrite (evaluate_lines_state PuzzleExtractor_init good puzzles w Hdecode Hcan).
  cbn [for_each].
  unfold mbind at 1. unfold M_bind at 1.
  unfold evaluate_line at 1.
  unfold mbind at 1. unfold M_bind at 1. unfold lift at 1.
  rewrite Hbad. reflexivity.
Qed.

Lemma snapshot_untried (ss : list ChessStrategy) :
  Forall (fun s => total (stats s) = 0) ss -> snapshot ss = EmptyString.
Proof.
  intros Hzero. unfold snapshot.
  replace (filter (fun strategy => 0 < total (stats strategy)) ss) with (@nil ChessStrategy);
    [reflexivity|].
  induction Hzero as [|s ss Hs _ IH]; [reflexivity|].
  rewrite filter_cons, decide_False by lia. exact IH.
Qed.

(** X18. On an empty file [evaluate_all] raises [StopIteration] and changes
    nothing; on a file of a header alone it returns after printing one
    snapshot, which is the empty line when no strategy has an attempt yet. *)
Theorem evaluate_all_short_files (extractor : PuzzleExtractor) (header : string)
    (w : World) :
  evaluate_all extractor [] w = (inl StopIteration, w) /\
  evaluate_all extractor [header] w =
    (inr (), {| strategies := strategies w;
                random_draws := random_draws w;
                stdout := stdout w ++ [snapshot (strategies w)] |}) /\
  (Forall (fun s => total (stats s) = 0) (strategies w) ->
   evaluate_all extractor [header] w =
     (inr (), {| strategies := strategies w;
                 random_draws := random_draws w;
                 stdout := stdout w ++ [EmptyString] |})).
Proof.
  assert (Hheader : evaluate_all extractor [header] w =
            (inr (), {| strategies := strategies w;
                        random_draws := random_draws w;
                        stdout := stdout w ++ [snapshot (strategies w)] |})).
  { unfold evaluate_all, mbind, M_bind. cbn [for_each].
    unfold mret, M_ret. apply print_stats_snapshot. }
  split; [reflexivity|]. split; [exact Hheader|].
  intros Hzero. rewrite Hheader, snapshot_untried by exact Hzero. reflexivity.
Qed.

End MoreRunFacts.

(** ** Decoding a record, and the text around it *)

Lemma split_fields (sep : ascii) (s : string) :
  split sep s <> [] /\
  Forall (fun field => has_char sep field = false) (split sep s).
Proof.
  induction s as [|c s [Hne Hfields]]; simpl.
  - split; [discriminate|]. repeat constructor.
  - destruct (decide (c = sep)) as [->|Hc].
    + split; [discriminate|]. constructor; [reflexivity|exact Hfields].
    + destruct (split sep s) as [|field fields]; [congruence|].
      apply Forall_cons in Hfields as [Hfield Hfields].
      split; [discriminate|]. constructor; [|exact Hfields].
      simpl. rewrite Hfield, bool_decide_eq_false_2 by exact Hc. reflexivity.
Qed.

Lemma join_cons_char (sep : string) (c : ascii) (field : string) (fields : list string) :
  join sep (String c field :: fields) = String c (join sep (field :: fields)).
Proof. destruct fields; reflexivity. Qed.

(** Joining the fields of a split text gives the text back. *)
Lemma join_split (sep : ascii) (s : string) :
  join (String sep EmptyString) (split sep s) = s.
Proof.
  induction s as [|c s IH]; simpl; [reflexivity|].
  destruct (decide (c = sep)) as [->|Hc].
  - destruct (split sep s) as [|field fields] eqn:Hsplit.
    + destruct (split_fields sep s) as [Hne _]. congruence.
    + change (join (String sep EmptyString) (EmptyString :: field :: fields))
        with (String sep (join (String sep EmptyString) (field :: fields))).
      rewrite IH. reflexivity.
  - destruct (split sep s) as [|field fields] eqn:Hsplit.
    + destruct (split_fields sep s) as [Hne _]. congruence.
    + rewrite join_cons_char, IH. reflexivity.
Qed.

Lemma split_no_comma_length (sep : ascii) (s : string) :
  has_char sep s = false -> split sep s !! 1 = None.
Proof. intros Hs. rewrite split_no_sep by exact Hs. reflexivity. Qed.

Section MoreDecodeFacts.
Context `{E : RulesEngine}.

(** X19. [extract_puzzle] raises [IndexError] on a line without a comma;
    [ValueError] when the second field is not a FEN [chess.Board] takes,
    whether or not there is a third field; [IndexError] when the second
    field is a good FEN and there is no third field; and it raises nothing
    else. *)
Theorem extract_puzzle_errors (line : string) :
  (has_char "," line = false ->
   extract_puzzle PuzzleExtractor_init line = inl IndexError) /\
  (forall fen, split "," line !! 1 = Some fen -> Board_of_fen fen = None ->
     extract_puzzle PuzzleExtractor_init line = inl ValueError) /\
  (forall fen board, split "," line !! 1 = Some fen -> Board_of_fen fen = Some board ->
     split "," line !! 2 = None ->
     extract_puzzle PuzzleExtractor_init line = inl IndexError) /\
  (forall e, extract_puzzle PuzzleExtractor_init line = inl e ->
     e = IndexError \/ e = ValueError).
Proof.
  rewrite extract_puzzle_fields.
  unfold mbind, Exc_bind, getitem, Board_init.
  split; [|split; [|split]].
  - intros Hline. rewrite split_no_comma_length by exact Hline. reflexivity.
  - intros fen Hfen Hboard. rewrite Hfen, Hboard. reflexivity.
  - intros fen board Hfen Hboard Hmoves. rewrite Hfen, Hboard, Hmoves. reflexivity.
  - intros e.
    destruct (split "," line !! 1) as [fen|]; [|intros [= <-]; left; reflexivity].
    destruct (Board_of_fen fen) as [board|]; [|intros [= <-]; right; reflexivity].
    destruct (split "," line !! 2) as [moves|]; [discriminate|].
    intros [= <-]. left. reflexivity.
Qed.

(** X20. When [extract_puzzle] returns, the board is built from the second
    field of the line, the solution moves are never empty, so that
    [solution_moves[0]] exists, none of them holds a space, and joined with
    spaces they give the third field back. *)
Theorem extract_puzzle_solution_moves (line : string) (board : Board)
    (solution_moves : list string) :
  extract_puzzle PuzzleExtractor_init line = inr (board, solution_moves) ->
  exists (fen moves expected : string) (others : list string),
    split "," line !! 1 = Some fen /\
    Board_of_fen fen = Some board /\
    split "," line !! 2 = Some moves /\
    solution_moves = expected :: others /\
    Forall (fun move => has_char " " move = false) solution_moves /\
    join " " solution_moves = moves.
Proof.
  rewrite extract_puzzle_fields.
  unfold mbind, Exc_bind, getitem, Board_init, mret, Exc_ret.
  destruct (split "," line !! 1) as [fen|]; [|discriminate].
  destruct (Board_of_fen fen) as [b|] eqn:Hboard; [|discriminate].
  destruct (split "," line !! 2) as [moves|]; [|discriminate].
  intros [= <- <-].
  destruct (split_fields " " moves) as [Hne Hfields].
  destruct (split " " moves) as [|expected others] eqn:Hsplit; [congruence|].
  exists fen, moves, expected, others.
  repeat split; try reflexivity; try assumption.
  rewrite <- Hsplit. apply join_split.
Qed.

End MoreDecodeFacts.

Lemma rstrip_all_space (ws : string) : all_space ws = true -> rstrip ws = EmptyString.
Proof.
  induction ws as [|c ws IH]; simpl; [reflexivity|].
  intros Hws. apply andb_true_iff in Hws as [Hc Hws].
  rewrite IH by exact Hws. rewrite Hc. reflexivity.
Qed.

Lemma rstrip_app_space (s ws : string) :
  all_space ws = true -> rstrip (s +:+ ws) = rstrip s.
Proof.
  intros Hws. induction s as [|c s IH].
  - simpl. rewrite rstrip_all_space by exact Hws. reflexivity.
  - change (String c s +:+ ws) with (String c (s +:+ ws)).
    cbn [rstrip]. rewrite IH. reflexivity.
Qed.

Lemma lstrip_all_space (ws : string) : all_space ws = true -> lstrip ws = EmptyString.
Proof.
  induction ws as [|c ws IH]; simpl; [reflexivity|].
  intros Hws. apply andb_true_iff in Hws as [Hc Hws].
  rewrite Hc. apply IH, Hws.
Qed.

Lemma lstrip_space_app (ws s : string) :
  all_space ws = true -> lstrip (ws +:+ s) = lstrip s.
Proof.
  induction ws as [|c ws IH]; simpl; [reflexivity|].
  intros Hws. apply andb_true_iff in Hws as [Hc Hws].
  rewrite Hc. apply IH, Hws.
Qed.

Lemma strip_app_space (s ws : string) :
  all_space ws = true -> strip (s +:+ ws) = strip s.
Proof.
  intros Hws. unfold strip. induction s as [|c s IH].
  - simpl. rewrite lstrip_all_space by exact Hws. reflexivity.
  - change (String c s +:+ ws) with (String c (s +:+ ws)).
    cbn [lstrip]. destruct (isspace c); [exact IH|].
    change (String c (s +:+ ws)) with (String c s +:+ ws).
    apply rstrip_app_space, Hws.
Qed.

Section MoreLineFacts.
Context `{E : RulesEngine}.

(** X21. White space before and after a line of the puzzle file, such as
    the newline that ends it, does not reach the decoder: [evaluate_line]
    behaves on the padded line as on the line itself. *)
Theorem evaluate_line_ignores_padding (extractor : PuzzleExtractor)
    (before line after : string) :
  all_space before = true ->
  all_space after = true ->
  strip (before +:+ line +:+ after) = strip line /\
  evaluate_line extractor (before +:+ line +:+ after) = evaluate_line extractor line.
Proof.
  intros Hbefore Hafter.
  assert (Hstrip : strip (before +:+ line +:+ after) = strip line).
  { unfold strip at 1. rewrite lstrip_space_app by exact Hbefore.
    apply (strip_app_space line after Hafter). }
  split; [exact Hstrip|].
  unfold evaluate_line. rewrite Hstrip. reflexivity.
Qed.

End MoreLineFacts.

(** ** Further runs on the table engine *)

Section MoreRuns.
Import Table Scenes.

Local Open Scope Z_scope.

(** [main] registers its three strategies in this order. *)
Example main_registration_strategies :
  strategies (snd (main_registration
                     {| strategies := []; random_draws := fun _ => 0%nat; stdout := [] |}))
    = main_strategies.
Proof. reflexivity. Qed.

(** Stalemate is a position without legal moves that is not checkmate: the
    search evaluates its material, a pawn down for the side to move. *)
Example stalemate_search :
  minmax balance_search stalemate 1 None 0 = (-1, None)
  /\ is_checkmate stalemate = false.
Proof. split; vm_compute; reflexivity. Qed.

Lemma MaterialDiff_minus_reference_witness :
  is_checkmate (push back_rank "e1a1") = false /\
  evaluate (MaterialDiffEvaluator "diff") (push back_rank "e1a1") back_rank 1 =
    evaluate (MaterialBalanceEvaluator "balance") (push back_rank "e1a1") back_rank 1
    - 1 * (material back_rank (turn (push back_rank "e1a1"))
           - material back_rank (other_side (turn (push back_rank "e1a1")))).
Proof.
  split; [reflexivity|].
  apply (MaterialDiff_minus_reference (E := engine) "diff" "balance"
           (push_of back_rank "e1a1") back_rank 1).
  reflexivity.
Defined.

Lemma same_material_counts_king_move :
  same_material_counts (push back_rank "g1h2") back_rank.
Proof.
  intros [] [] Hking; try (exfalso; apply Hking; reflexivity);
    vm_compute; reflexivity.
Defined.

Lemma MaterialDiff_same_counts_witness :
  is_checkmate (push back_rank "g1h2") = false /\
  same_material_counts (push back_rank "g1h2") back_rank /\
  evaluate (MaterialDiffEvaluator "diff") (push back_rank "g1h2") back_rank 1 = 0.
Proof.
  split; [reflexivity|]. split; [exact same_material_counts_king_move|].
  apply (MaterialDiff_same_counts (E := engine) "diff"
           (push_of back_rank "g1h2") back_rank 1);
    [reflexivity|exact same_material_counts_king_move].
Defined.

Lemma candidate_score_last_ply_witness :
  depth balance_search = 0 + 1 /\
  candidate_score balance_search back_rank 1 None 0 "e1a1" =
    evaluate (evaluator balance_search) (apply_move back_rank "e1a1")
      (or_board None back_rank) 1.
Proof.
  split; [reflexivity|].
  apply (candidate_score_last_ply (E := engine) balance_search back_rank 1 None 0 "e1a1").
  reflexivity.
Defined.

Lemma candidate_score_mate_witness :
  is_checkmate (apply_move back_rank "e1e8") = true /\
  legal_moves (apply_move back_rank "e1e8") = [] /\
  candidate_score diff_search back_rank 1 None 0 "e1e8" = - 1.
Proof.
  split; [reflexivity|]. split; [reflexivity|].
  apply (candidate_score_mate (E := engine) diff_search back_rank 1 None 0 "e1e8");
    reflexivity.
Defined.

Lemma MinMaxStrategy_get_move_legal_witness :
  MinMaxStrategy_get_move balance_search back_rank = Some "e1a1" /\
  exists (i : nat) (move : Move),
    legal_moves back_rank !! i = Some move /\ uci move = "e1a1".
Proof.
  split; [vm_compute; reflexivity|].
  apply (MinMaxStrategy_get_move_legal (E := engine) balance_search back_rank "e1a1").
  vm_compute. reflexivity.
Defined.

Lemma pawn_ending_leaves :
  Forall (fun leaf => is_checkmate leaf = false /\ turn leaf = BLACK)
         (leaves (Z.to_nat (1 - 0)) pawn_ending).
Proof. repeat constructor. Defined.

Lemma minmax_evaluators_agree_witness :
  Forall (fun leaf => is_checkmate leaf = false /\ turn leaf = BLACK)
         (leaves (Z.to_nat (1 - 0)) pawn_ending) /\
  snd (minmax {| depth := 1; evaluator := MaterialDiffEvaluator "diff" |}
         pawn_ending 1 None 0) =
  snd (minmax {| depth := 1; evaluator := MaterialBalanceEvaluator "balance" |}
         pawn_ending 1 None 0).
Proof.
  split; [exact pawn_ending_leaves|].
  exact (proj1 (minmax_evaluators_agree (E := engine) "diff" "balance" 1
                  pawn_ending 1 None 0 BLACK pawn_ending_leaves)).
Defined.

(** Both one-ply searches take the pawn on [pawn_ending]. *)
Example pawn_ending_moves :
  MinMaxStrategy_get_move balance_search pawn_ending = Some "h2g3"
  /\ MinMaxStrategy_get_move diff_search pawn_ending = Some "h2g3".
Proof. split; vm_compute; reflexivity. Qed.

Lemma start_can_answer (draws : nat -> nat) :
  Forall (can_answer back_rank) (strategies (start draws)).
Proof. repeat constructor; intros _; discriminate. Defined.

Lemma evaluate_puzzle_accounting_witness :
  Forall (can_answer back_rank) (strategies (start (fun _ => 5%nat))) /\
  exists (hit : bool) (w' : World),
    evaluate_puzzle back_rank "e1e8" (start (fun _ => 5%nat)) = (inr hit, w') /\
    stdout w' = stdout (start (fun _ => 5%nat)) /\
    Forall2 (counted 1) (strategies (start (fun _ => 5%nat))) (strategies w') /\
    (hit = true <->
     exists (i : nat) (s s' : ChessStrategy),
       strategies (start (fun _ => 5%nat)) !! i = Some s /\
       strategies w' !! i = Some s' /\
       wins (stats s') = (wins (stats s) + 1)%nat).
Proof.
  split; [exact (start_can_answer _)|].
  exact (evaluate_puzzle_accounting (E := engine) back_rank "e1e8"
           (start (fun _ => 5%nat)) (start_can_answer _)).
Defined.

Lemma evaluate_puzzle_raises_midway_witness :
  legal_moves stalemate = [] /\
  Forall is_MinMax (take 1 (strategies start_mixed)) /\
  kind RandomStrategy_init = Random /\
  evaluate_puzzle stalemate "e1d1" start_mixed =
    (inl IndexError,
     {| strategies := map (update_stats false) (take 1 (strategies start_mixed))
                      ++ RandomStrategy_init :: drop 2 (strategies start_mixed);
        random_draws := random_draws start_mixed;
        stdout := stdout start_mixed |}).
Proof.
  assert (Hbefore : Forall is_MinMax (take 1 (strategies start_mixed))).
  { repeat constructor. eexists. reflexivity. }
  split; [reflexivity|]. split; [exact Hbefore|]. split; [reflexivity|].
  exact (evaluate_puzzle_raises_midway (E := engine) stalemate "e1d1"
           (take 1 (strategies start_mixed)) (drop 2 (strategies start_mixed))
           RandomStrategy_init (random_draws start_mixed) (stdout start_mixed)
           eq_refl Hbefore eq_refl).
Defined.

Lemma late_search_can_answer : can_answer back_rank late_search.
Proof. intros Hkind. discriminate. Defined.

Lemma add_strategy_independent_witness :
  Forall (can_answer back_rank) (strategies (start (fun _ => 5%nat))) /\
  can_answer back_rank late_search /\
  exists (hit : bool) (w1 : World),
    evaluate_puzzle back_rank "e1a1" (start (fun _ => 5%nat)) = (inr hit, w1) /\
    let '(move, draws) := select_move late_search back_rank (random_draws w1) in
    (add_strategy late_search;; evaluate_puzzle back_rank "e1a1")
      (start (fun _ => 5%nat)) =
      (inr (hit || eq_move move "e1a1"),
       {| strategies :=
            strategies w1 ++ [update_stats (eq_move move "e1a1") late_search];
          random_draws := draws;
          stdout := stdout w1 |}).
Proof.
  split; [exact (start_can_answer _)|]. split; [exact late_search_can_answer|].
  exact (add_strategy_independent (E := engine) late_search back_rank "e1a1"
           (start (fun _ => 5%nat)) (start_can_answer _) late_search_can_answer).
Defined.

Lemma evaluate_all_accounting_witness :
  Forall2 (decodes_to PuzzleExtractor_init) (tail puzzle_file) puzzles /\
  Forall (fun puzzle =>
            Forall (can_answer (fst puzzle)) (strategies (start (fun _ => 5%nat))))
    puzzles /\
  exists w',
    evaluate_all PuzzleExtractor_init puzzle_file (start (fun _ => 5%nat)) = (inr (), w') /\
    Forall2 (counted (length puzzles)) (strategies (start (fun _ => 5%nat)))
      (strategies w').
Proof.
  split; [exact puzzle_file_decodes|].
  split; [exact (puzzle_file_can_answer _)|].
  destruct (evaluate_all_accounting (E := engine) (hd EmptyString puzzle_file)
              (tail puzzle_file) puzzles (start (fun _ => 5%nat))
              puzzle_file_decodes (puzzle_file_can_answer _))
    as (w' & Hrun & Hcounted & _).
  exists w'. split; [exact Hrun|exact Hcounted].
Defined.

Lemma broken_file_decodes :
  Forall2 (decodes_to PuzzleExtractor_init) (take 1 (tail broken_file))
    [(back_rank, "e1e8")].
Proof.
  repeat constructor; eexists; (split; [vm_compute; reflexivity|reflexivity]).
Defined.

Lemma broken_file_can_answer :
  Forall (fun puzzle =>
            Forall (can_answer (fst puzzle)) (strategies (start (fun _ => 5%nat))))
    [(back_rank, "e1e8")].
Proof. repeat constructor; intros _; discriminate. Defined.

Lemma evaluate_all_aborts_witness :
  Forall2 (decodes_to PuzzleExtractor_init) (take 1 (tail broken_file))
    [(back_rank, "e1e8")] /\
  Forall (fun puzzle =>
            Forall (can_answer (fst puzzle)) (strategies (start (fun _ => 5%nat))))
    [(back_rank, "e1e8")] /\
  extract_puzzle PuzzleExtractor_init
    (strip (default EmptyString (broken_file !! 2%nat))) = inl ValueError /\
  fst (evaluate_all PuzzleExtractor_init broken_file (start (fun _ => 5%nat)))
    = inl ValueError.
Proof.
  split; [exact broken_file_decodes|]. split; [exact broken_file_can_answer|].
  split; [vm_compute; reflexivity|].
  exact (f_equal fst
           (evaluate_all_aborts (E := engine) (hd EmptyString broken_file)
              (take 1 (tail broken_file))
              (default EmptyString (broken_file !! 2%nat))
              (drop 3 broken_file) [(back_rank, "e1e8")] ValueError
              (start (fun _ => 5%nat))
              broken_file_decodes broken_file_can_answer eq_refl)).
Defined.

(** What the aborted run leaves behind: the snapshot of the first puzzle,
    which the random strategy answered, and one attempt for each strategy. *)
Example broken_file_output :
  let w' := snd (evaluate_all PuzzleExtractor_init broken_file (start (fun _ => 5%nat))) in
  stdout w' = ["random: 1/1 (100.0%) | minmax_balance: 0/1 (0.0%) | minmax_diff: 0/1 (0.0%)"]
  /\ map (fun s => total (stats s)) (strategies w') = [1; 1; 1]%nat.
Proof. split; vm_compute; reflexivity. Qed.

Lemma extract_puzzle_solution_moves_witness :
  extract_puzzle PuzzleExtractor_init (join "," ordered_record)
    = inr (back_rank, ["e1e8"]) /\
  exists (fen moves expected : string) (others : list string),
    split "," (join "," ordered_record) !! 1%nat = Some fen /\
    Board_of_fen fen = Some back_rank /\
    split "," (join "," ordered_record) !! 2%nat = Some moves /\
    ["e1e8"] = expected :: others /\
    Forall (fun move => has_char " " move = false) ["e1e8"] /\
    join " " ["e1e8"] = moves.
Proof.
  split; [vm_compute; reflexivity|].
  apply (extract_puzzle_solution_moves (E := engine) (join "," ordered_record)
           back_rank ["e1e8"]).
  vm_compute. reflexivity.
Defined.

Lemma evaluate_line_ignores_padding_witness :
  all_space "  " = true /\
  all_space (String "013"%char (String "010"%char EmptyString)) = true /\
  strip ("  " +:+ join "," ordered_record
           +:+ String "013"%char (String "010"%char EmptyString))
    = strip (join "," ordered_record).
Proof.
  split; [reflexivity|]. split; [reflexivity|].
  apply (evaluate_line_ignores_padding (E := engine) PuzzleExtractor_init
           "  " (join "," ordered_record)
           (String "013"%char (String "010"%char EmptyString)));
    reflexivity.
Defined.

End MoreRuns.
